(** * Folder Aggregator: a shallow embedding of [sharepoint_aggregator.py]

    The development follows the source file top to bottom:
    - [PyStr]      the Python string and [pathlib] operations the code calls;
    - [Runtime]    the values, the mutable world and the exception monad;
    - [Local]      [LocalFolderProcessor];
    - [Remote]     [SharePointConnector];
    - [Extractor]  [QuestionnaireExtractor.extract_data] over an openpyxl model;
    - [Aggregator] [DataAggregator] over a pandas [DataFrame] model;
    - [Pipeline]   the two traversal branches of [main].

    Library calls (pathlib, openpyxl, pandas, the SharePoint client) are
    modelled by their documented behaviour; everything else is translated
    statement by statement. *)

From Stdlib Require Import String Ascii List ZArith Lia.
From stdpp Require Import base option gmap strings list pretty.

Open Scope string_scope.
Open Scope list_scope.

(* ===================================================================== *)
(** ** Python strings *)
(* ===================================================================== *)

Module PyStr.

(** [s.startswith(p)]. *)
Definition startswith (s p : string) : bool := String.prefix p s.

(** [s.endswith(p)]: the last [len(p)] characters of [s] are [p]. *)
Definition endswith (s p : string) : bool :=
  let n := String.length s in
  let k := String.length p in
  if (k <=? n)%nat then String.eqb (substring (n - k) k s) p else false.

(** [s.endswith((p1, p2, ...))]: some element of the tuple is a suffix. *)
Definition endswith_any (s : string) (ps : list string) : bool :=
  existsb (endswith s) ps.

(** [c.lower()] on one character of the byte string. Among the code
    points below 128 only A..Z change; bytes of longer code points are
    left alone, which is enough here: no such code point lower-cases to
    a full stop or to one of the letters x, l, s that the comparison
    with ".xlsx" and ".xls" looks for. *)
Definition lower_ascii (c : ascii) : ascii :=
  let n := nat_of_ascii c in
  if ((65 <=? n) && (n <=? 90))%nat then ascii_of_nat (n + 32) else c.

(** [s.lower()]. *)
Fixpoint lower (s : string) : string :=
  match s with
  | EmptyString => EmptyString
  | String c r => String (lower_ascii c) (lower r)
  end.

(** [s.rfind(c)]: the highest index of [c] in [s], or [-1]. *)
Fixpoint rfind (c : ascii) (s : string) : Z :=
  match s with
  | EmptyString => (-1)%Z
  | String d r =>
      let i := rfind c r in
      if (0 <=? i)%Z then (i + 1)%Z
      else if Ascii.eqb d c then 0%Z else (-1)%Z
  end.

(** [s[i:]] for [0 <= i]. *)
Definition slice_from (i : Z) (s : string) : string :=
  substring (Z.to_nat i) (String.length s - Z.to_nat i) s.

(** [PurePath.suffix] applied to the final path component [name]:
    [i = name.rfind('.')]; the suffix is [name[i:]] when
    [0 < i < len(name) - 1] and the empty string otherwise. *)
Definition suffix (name : string) : string :=
  let i := rfind "."%char name in
  if ((0 <? i) && (i <? Z.of_nat (String.length name) - 1))%Z
  then slice_from i name else "".

(** [x in [a, b, ...]] on strings. *)
Definition str_in (x : string) (l : list string) : bool :=
  existsb (String.eqb x) l.

(** [str(n)] for a non-negative integer. *)
Definition str_of_nat (n : nat) : string := pretty n.

(** The newline character of ["\n"]. *)
Definition nl : string := String (ascii_of_nat 10) EmptyString.

(** [c * n] for a one-character string. *)
Fixpoint repeat_str (c : string) (n : nat) : string :=
  match n with
  | O => ""
  | S k => c +:+ repeat_str c k
  end.

(** [os.path.join(a, b)] for two components on a POSIX system. *)
Definition path_join (a b : string) : string :=
  if startswith b "/" then b
  else if String.eqb a "" then b
  else if endswith a "/" then a +:+ b
  else a +:+ "/" +:+ b.

End PyStr.

(* ===================================================================== *)
(** ** Values, the world and the exception monad *)
(* ===================================================================== *)

Module Runtime.

(** An exception is represented by the text [str(e)] that the handlers
    of the source interpolate into their messages. *)
Definition exn := string.

(** The value of a spreadsheet cell as openpyxl hands it over:
    [None] for an empty cell, else text, a number, a boolean or a date.
    The program never inspects these values, it only moves them. *)
Inductive cell_value : Type :=
| VNone
| VStr (s : string)
| VInt (z : Z)
| VFloat (mantissa exponent : Z)
| VBool (b : bool)
| VDate (iso : string).

(** What [workbook.active] can be after a successful load: no sheet at
    all ([None]), a chart sheet, or a worksheet with its cells keyed by
    coordinate (["B1"], ["C3"], ...). Only a worksheet is subscriptable. *)
Inductive ActiveSheet : Type :=
| NoSheet
| Chartsheet
| Worksheet (cells : gmap string cell_value).

Record Workbook : Type := { active : ActiveSheet }.

(** What a path on the local disk holds, as [openpyxl.load_workbook]
    sees it: something it rejects with an exception, or a workbook. *)
Inductive FileData : Type :=
| Corrupt (cause : exn)
| Book (wb : Workbook).

(** The table that [DataFrame.to_excel] writes: a header row and the
    data rows below it. *)
Record Table : Type := { header : list string; body : list (list cell_value) }.

(** The mutable world of one run. *)
Record World : Type := {
  stdout : list string;              (* one entry per [print] call *)
  disk : gmap string FileData;       (* readable files by path *)
  open_workbooks : list string;      (* archives held open by workbooks *)
  artifacts : gmap string Table      (* files written by [to_excel] *)
}.

Definition set_stdout (f : list string -> list string) (w : World) : World :=
  {| stdout := f (stdout w); disk := disk w;
     open_workbooks := open_workbooks w; artifacts := artifacts w |}.

Definition set_disk (f : gmap string FileData -> gmap string FileData)
    (w : World) : World :=
  {| stdout := stdout w; disk := f (disk w);
     open_workbooks := open_workbooks w; artifacts := artifacts w |}.

Definition set_open (f : list string -> list string) (w : World) : World :=
  {| stdout := stdout w; disk := disk w;
     open_workbooks := f (open_workbooks w); artifacts := artifacts w |}.

Definition set_artifacts (f : gmap string Table -> gmap string Table)
    (w : World) : World :=
  {| stdout := stdout w; disk := disk w;
     open_workbooks := open_workbooks w; artifacts := f (artifacts w) |}.

(** A statement either completes with a value or raises. *)
Inductive outcome (A : Type) : Type :=
| Ok (a : A)
| Raise (e : exn).
Arguments Ok {A} a.
Arguments Raise {A} e.

(** Computations: world in, outcome and world out. The world survives
    an exception, as the effects of the statements already run do. *)
Definition M (A : Type) : Type := World -> outcome A * World.

Definition ret {A} (a : A) : M A := fun w => (Ok a, w).

Definition bind {A B} (m : M A) (k : A -> M B) : M B :=
  fun w => match m w with
           | (Ok a, w') => k a w'
           | (Raise e, w') => (Raise e, w')
           end.

Definition raise {A} (e : exn) : M A := fun w => (Raise e, w).

(** [try: body  except Exception as e: handler e]. *)
Definition try_except {A} (body : M A) (handler : exn -> M A) : M A :=
  fun w => match body w with
           | (Ok a, w') => (Ok a, w')
           | (Raise e, w') => handler e w'
           end.

(** Lift the result of a library call that may raise. *)
Definition lift {A} (r : exn + A) : M A :=
  match r with inl e => raise e | inr a => ret a end.

(** [print(s)]. *)
Definition print (s : string) : M unit :=
  fun w => (Ok tt, set_stdout (fun out => out ++ [s]) w).

(** A [for] loop that threads an accumulator through its body. *)
Fixpoint for_each {A S} (l : list A) (body : S -> A -> M S) (s : S) : M S :=
  match l with
  | [] => ret s
  | x :: r => bind (body s x) (for_each r body)
  end.

(** A [for] loop that collects one result per iteration. *)
Fixpoint for_collect {A B} (l : list A) (body : A -> M B) : M (list B) :=
  match l with
  | [] => ret []
  | x :: r => bind (body x) (fun b =>
              bind (for_collect r body) (fun bs => ret (b :: bs)))
  end.

(** Completes without raising. *)
Definition returns {A} (m : M A) (w : World) : Prop :=
  exists a, fst (m w) = Ok a.

End Runtime.

Declare Scope py_scope.
Delimit Scope py_scope with py.
Notation "x <- m ;; k" := (Runtime.bind m (fun x => k))
  (at level 100, m at next level, right associativity) : py_scope.
Notation "m ;;; k" := (Runtime.bind m (fun _ => k))
  (at level 100, right associativity) : py_scope.

Import PyStr Runtime.
Open Scope py_scope.

(* ===================================================================== *)
(** ** The stores the run reads from *)
(* ===================================================================== *)

Module Store.

(** A [Path] yielded by [Path.iterdir()], with the answers the file
    system gives to [is_dir()] and [is_file()] for it. *)
Record DirEntry : Type := {
  e_path : string;     (* str(path) *)
  e_name : string;     (* path.name *)
  e_is_dir : bool;
  e_is_file : bool
}.

(** A folder or file object of the SharePoint client: the code only
    reads its [properties] dictionary. *)
Record SPItem : Type := { properties : gmap string string }.

(** [item.properties.get(key, '')]. *)
Definition prop_get (item : SPItem) (key : string) : string :=
  default "" (properties item !! key).

(** The read-only surroundings of a run. Each listing either raises
    (an I/O, network or permission error) or yields its entries in the
    order of the underlying store. *)
Record Env : Type := {
  (* [path.iterdir()] *)
  iterdir : string -> exn + list DirEntry;
  (* [get_folder_by_server_relative_url(p).folders], loaded and executed *)
  sp_folders : string -> exn + list SPItem;
  (* [get_folder_by_server_relative_url(p).files], loaded and executed *)
  sp_files : string -> exn + list SPItem;
  (* [File.open_binary(ctx, url)] followed by writing the content *)
  sp_open_binary : string -> exn + FileData;
  (* the error [DataFrame.to_excel] raises for a destination, if any *)
  to_excel_error : string -> option exn
}.

End Store.
Import Store.

(* ===================================================================== *)
(** ** LocalFolderProcessor *)
(* ===================================================================== *)

Module Local.

(** The filter of the comprehension in [get_folders]. *)
Definition is_unit_folder (f : DirEntry) : bool :=
  e_is_dir f && negb (startswith (e_name f) ".").

(** [LocalFolderProcessor.get_folders]. *)
Definition get_folders (env : Env) (base_path : string) : M (list DirEntry) :=
  try_except
    (entries <- lift (iterdir env base_path) ;;
     ret (List.filter is_unit_folder entries))
    (fun e =>
       print ("Error getting folders from " +:+ base_path +:+ ": " +:+ e) ;;;
       ret []).

(** The condition of the [if] in [get_excel_files_in_folder]. *)
Definition is_excel_file (file : DirEntry) : bool :=
  e_is_file file
  && str_in (lower (suffix (e_name file))) [".xlsx"; ".xls"]
  && negb (startswith (e_name file) "~$").

(** [LocalFolderProcessor.get_excel_files_in_folder]: the loop appends
    the accepted entries to [excel_files] in iteration order. *)
Definition get_excel_files_in_folder (env : Env) (folder_path : string)
    : M (list DirEntry) :=
  try_except
    (entries <- lift (iterdir env folder_path) ;;
     ret (fold_left
            (fun excel_files file =>
               if is_excel_file file then excel_files ++ [file]
               else excel_files)
            entries []))
    (fun e =>
       print ("Error getting files from " +:+ folder_path +:+ ": " +:+ e) ;;;
       ret []).

End Local.

(* ===================================================================== *)
(** ** SharePointConnector *)
(* ===================================================================== *)

Module Remote.

(** [SharePointConnector.get_folders_in_path]. *)
Definition get_folders_in_path (env : Env) (folder_path : string)
    : M (list SPItem) :=
  try_except
    (folders <- lift (sp_folders env folder_path) ;;
     ret folders)
    (fun e =>
       print ("Error getting folders from " +:+ folder_path +:+ ": " +:+ e) ;;;
       ret []).

(** The condition of the [if] in [get_excel_files_in_folder]. *)
Definition is_excel_file (file : SPItem) : bool :=
  let file_name := prop_get file "Name" in
  endswith_any file_name [".xlsx"; ".xls"]
  && negb (startswith file_name "~$").

(** [SharePointConnector.get_excel_files_in_folder]. *)
Definition get_excel_files_in_folder (env : Env) (folder_url : string)
    : M (list SPItem) :=
  try_except
    (files <- lift (sp_files env folder_url) ;;
     ret (fold_left
            (fun excel_files file =>
               if is_excel_file file then excel_files ++ [file]
               else excel_files)
            files []))
    (fun e =>
       print ("Error getting files from " +:+ folder_url +:+ ": " +:+ e) ;;;
       ret []).

(** [SharePointConnector.download_file]: fetch the content and write it
    to [local_path]; [True] on success, [False] after any exception. *)
Definition download_file (env : Env) (file_url local_path : string) : M bool :=
  try_except
    (content <- lift (sp_open_binary env file_url) ;;
     (fun w => (Ok tt, set_disk (fun d => <[local_path := content]> d) w)) ;;;
     ret true)
    (fun e =>
       print ("Error downloading file " +:+ file_url +:+ ": " +:+ e) ;;;
       ret false).

End Remote.

(* ===================================================================== *)
(** ** QuestionnaireExtractor over an openpyxl model *)
(* ===================================================================== *)

Module Extractor.

(** One element of [questions_answers]: the dictionary with the keys
    ['question'], ['answer'] and ['comment']. *)
Record QA : Type := {
  question : cell_value;
  answer : cell_value;
  comment : cell_value
}.

(** The dictionary [extract_data] returns. It always has these five
    keys, so it is never empty and never falsy. *)
Record Questionnaire : Type := {
  source_folder : string;
  application : cell_value;
  responsible : cell_value;
  deputy : cell_value;
  questions_answers : list QA
}.

(** What [openpyxl.load_workbook] makes of a path: it raises when the
    path is missing or its content is not a workbook, and otherwise reads
    the workbook. *)
Definition load_result (d : gmap string FileData) (file_path : string)
    : exn + Workbook :=
  match d !! file_path with
  | None => inl ("[Errno 2] No such file or directory: '" +:+ file_path +:+ "'")
  | Some (Corrupt cause) => inl cause
  | Some (Book wb) => inr wb
  end.

(** The workbook object [load_workbook] hands back: what was read, and
    the archive the object still holds. openpyxl leaves the archive on
    the workbook only in read-only mode; in the default mode the file is
    read completely and released before [load_workbook] returns. *)
Record LoadedWorkbook : Type := {
  loaded : Workbook;
  archive : option string
}.

(** [openpyxl.load_workbook(file_path, read_only=read_only, data_only=True)].
    [data_only] makes formula cells yield their cached value; the cells
    of the model hold values already. *)
Definition load_workbook (file_path : string) (read_only : bool)
    : M LoadedWorkbook :=
  fun w =>
    match load_result (disk w) file_path with
    | inl e => (Raise e, w)
    | inr wb =>
        if read_only then
          (Ok {| loaded := wb; archive := Some file_path |},
           set_open (fun o => o ++ [file_path]) w)
        else (Ok {| loaded := wb; archive := None |}, w)
    end.

(** Remove the first occurrence of a handle. *)
Fixpoint remove_one (h : string) (l : list string) : list string :=
  match l with
  | [] => []
  | x :: r => if String.eqb x h then r else x :: remove_one h r
  end.

(** [workbook.close()]: closes the archive the workbook holds, if it
    holds one; it does nothing for a workbook loaded in the default mode. *)
Definition close (workbook : LoadedWorkbook) : M unit :=
  fun w =>
    match archive workbook with
    | Some h => (Ok tt, set_open (remove_one h) w)
    | None => (Ok tt, w)
    end.

(** [sheet[coord].value]: subscripting anything but a worksheet raises
    [TypeError]; an empty cell of a worksheet has the value [None]. *)
Definition cell_read (sheet : ActiveSheet) (coord : string) : exn + cell_value :=
  match sheet with
  | NoSheet => inl "'NoneType' object is not subscriptable"
  | Chartsheet => inl "'Chartsheet' object is not subscriptable"
  | Worksheet cells => inr (default VNone (cells !! coord))
  end.

Definition cell (sheet : ActiveSheet) (coord : string) : M cell_value :=
  lift (cell_read sheet coord).

(** [range(3, 20)]. *)
Definition question_rows : list nat := seq 3 17.

(** The body of the loop over the question rows. *)
Definition read_row (sheet : ActiveSheet) (row : nat) : M QA :=
  question <- cell sheet ("B" +:+ str_of_nat row) ;;
  answer <- cell sheet ("C" +:+ str_of_nat row) ;;
  comment <- cell sheet ("D" +:+ str_of_nat row) ;;
  ret {| question := question; answer := answer; comment := comment |}.

(** The [try] block of [extract_data]. The call is
    [load_workbook(file_path, data_only=True)]: [read_only] keeps its
    default, [False]. *)
Definition extract_body (file_path source_folder : string) : M Questionnaire :=
  workbook <- load_workbook file_path false ;;
  let sheet := active (loaded workbook) in
  application <- cell sheet "B1" ;;
  responsible <- cell sheet "C1" ;;
  deputy <- cell sheet "D1" ;;
  questions_answers <- for_collect question_rows (read_row sheet) ;;
  close workbook ;;;
  ret {| source_folder := source_folder;
         application := application;
         responsible := responsible;
         deputy := deputy;
         questions_answers := questions_answers |}.

(** [QuestionnaireExtractor.extract_data]: the record, or [None] after
    printing the path and the cause. *)
Definition extract_data (file_path source_folder : string)
    : M (option Questionnaire) :=
  try_except
    (data <- extract_body file_path source_folder ;;
     ret (Some data))
    (fun e =>
       print ("Error extracting data from " +:+ file_path +:+ ": " +:+ e) ;;;
       ret None).

End Extractor.
Import Extractor.

(* ===================================================================== *)
(** ** DataAggregator over a pandas model *)
(* ===================================================================== *)

Module Aggregator.

(** A Python [dict] with string keys, in insertion order. *)
Definition dict : Type := list (string * cell_value).

(** [d[k] = v]: an existing key keeps its position and takes the new
    value, a new key goes to the end. *)
Fixpoint dict_set (k : string) (v : cell_value) (d : dict) : dict :=
  match d with
  | [] => [(k, v)]
  | (k', v') :: r =>
      if String.eqb k' k then (k, v) :: r else (k', v') :: dict_set k v r
  end.

(** [d.get(k)]. *)
Fixpoint dict_get (k : string) (d : dict) : option cell_value :=
  match d with
  | [] => None
  | (k', v') :: r => if String.eqb k' k then Some v' else dict_get k r
  end.

Definition keys (d : dict) : list string := map fst d.

(** [enumerate(l, start=start)]. *)
Definition enumerate {A} (start : nat) (l : list A) : list (nat * A) :=
  combine (seq start (length l)) l.

(** [pd.DataFrame(rows)] for a list of dictionaries: the columns are the
    keys in order of first appearance over the rows; a row without a
    key gets a missing value there, which [to_excel] writes as an empty
    cell exactly like [None]. Column type inference is not modelled:
    cells keep the values they were given. *)
Record DataFrame : Type := {
  columns : list string;
  values : list (list cell_value)
}.

Definition add_columns (cols : list string) (row : dict) : list string :=
  fold_left (fun cols k => if str_in k cols then cols else cols ++ [k])
            (keys row) cols.

Definition frame_columns (rows : list dict) : list string :=
  fold_left add_columns rows [].

Definition frame_row (cols : list string) (row : dict) : list cell_value :=
  map (fun c => default VNone (dict_get c row)) cols.

Definition make_frame (rows : list dict) : DataFrame :=
  let cols := frame_columns rows in
  {| columns := cols; values := map (frame_row cols) rows |}.

(** The sheet [df.to_excel(path, index=index)] writes: with [index] an
    unnamed first column holds the row numbers 0, 1, ...; without it
    the sheet is the header and the rows. *)
Definition sheet_of_frame (df : DataFrame) (index : bool) : Table :=
  if index then
    {| header := "" :: columns df;
       body := map (fun '(i, r) => VInt (Z.of_nat i) :: r)
                   (enumerate 0 (values df)) |}
  else {| header := columns df; body := values df |}.

(** [df.to_excel(output_file, index=index)]: raises when the destination
    cannot be written, else replaces whatever was at that path. *)
Definition to_excel (env : Env) (df : DataFrame) (output_file : string)
    (index : bool) : M unit :=
  fun w =>
    match to_excel_error env output_file with
    | Some e => (Raise e, w)
    | None =>
        (Ok tt,
         set_artifacts (fun a => <[output_file := sheet_of_frame df index]> a) w)
    end.

(** The object state of [DataAggregator]. *)
Record DataAggregator : Type := { all_data : list Questionnaire }.

(** [DataAggregator.__init__]. *)
Definition init : DataAggregator := {| all_data := [] |}.

(** [DataAggregator.add_questionnaire]: [if data:] holds for every
    dictionary [extract_data] builds and fails for [None]. *)
Definition add_questionnaire (self : DataAggregator)
    (data : option Questionnaire) : DataAggregator :=
  match data with
  | Some d => {| all_data := all_data self ++ [d] |}
  | None => self
  end.

(** The dictionary [row] built for one record in [export_to_excel]. *)
Definition build_row (data : Questionnaire) : dict :=
  let row := [("Application", application data);
              ("Answered", responsible data);
              ("App Responsible", responsible data);
              ("Deputy", deputy data)] in
  let row := fold_left
               (fun row '(i, qa) => dict_set ("Q" +:+ str_of_nat i) (answer qa) row)
               (enumerate 1 (questions_answers data)) row in
  let row := fold_left
               (fun row '(i, qa) =>
                  dict_set ("COMM Q" +:+ str_of_nat i) (comment qa) row)
               (enumerate 1 (questions_answers data)) row in
  row.

(** The list [rows] after the loop over [self.all_data]. *)
Definition build_rows (all : list Questionnaire) : list dict :=
  fold_left (fun rows data => rows ++ [build_row data]) all [].

(** [DataAggregator.export_to_excel]. *)
Definition export_to_excel (env : Env) (self : DataAggregator)
    (output_file : string) : M unit :=
  match all_data self with
  | [] => print "No data to export"
  | _ :: _ =>
      let rows := build_rows (all_data self) in
      let df := make_frame rows in
      to_excel env df output_file false ;;;
      print ("Aggregated data exported to: " +:+ output_file)
  end.

End Aggregator.
Import Aggregator.

(* ===================================================================== *)
(** ** The traversal of [main] *)
(* ===================================================================== *)

Module Pipeline.

(** The body of the loop over the files of a local folder. *)
Definition local_file (folder_name : string) (aggregator : DataAggregator)
    (excel_file : DirEntry) : M DataAggregator :=
  let file_name := e_name excel_file in
  print ("    Processing: " +:+ file_name) ;;;
  data <- extract_data (e_path excel_file) folder_name ;;
  match data with
  | Some _ =>
      let aggregator := add_questionnaire aggregator data in
      print ("      Extracted data from " +:+ file_name) ;;;
      ret aggregator
  | None =>
      print ("      Failed to extract data from " +:+ file_name) ;;;
      ret aggregator
  end.

(** The body of the loop over the local folders. *)
Definition local_folder (env : Env) (aggregator : DataAggregator)
    (folder : DirEntry) : M DataAggregator :=
  let folder_name := e_name folder in
  print (nl +:+ "Processing folder: " +:+ folder_name) ;;;
  excel_files <- Local.get_excel_files_in_folder env (e_path folder) ;;
  print ("  Found " +:+ str_of_nat (length excel_files) +:+ " Excel file(s)") ;;;
  for_each excel_files (local_file folder_name) aggregator.

(** The last three statements of either branch of [main]. *)
Definition finish (env : Env) (aggregator : DataAggregator)
    (output_file : string) : M DataAggregator :=
  print (nl +:+ repeat_str "=" 50) ;;;
  export_to_excel env aggregator output_file ;;;
  print (nl +:+ "Processing complete! Total questionnaires processed: "
            +:+ str_of_nat (length (all_data aggregator))) ;;;
  ret aggregator.

(** The [mode == 'local'] branch of [main], from the resolved
    [base_path] on. The aggregator is returned for inspection. *)
Definition main_local (env : Env) (base_path output_file : string)
    : M DataAggregator :=
  print "Mode: Local Filesystem" ;;;
  print ("Scanning folders in: " +:+ base_path) ;;;
  let aggregator := init in
  folders <- Local.get_folders env base_path ;;
  print ("Found " +:+ str_of_nat (length folders) +:+ " folders") ;;;
  aggregator <- for_each folders (local_folder env) aggregator ;;
  finish env aggregator output_file.

(** The body of the loop over the files of a remote folder. *)
Definition remote_file (env : Env) (temp_dir folder_name : string)
    (aggregator : DataAggregator) (excel_file : SPItem) : M DataAggregator :=
  let file_name := prop_get excel_file "Name" in
  let file_url := prop_get excel_file "ServerRelativeUrl" in
  print ("    Processing: " +:+ file_name) ;;;
  let local_path := path_join temp_dir file_name in
  downloaded <- Remote.download_file env file_url local_path ;;
  if (downloaded : bool) then
    data <- extract_data local_path folder_name ;;
    match data with
    | Some _ =>
        let aggregator := add_questionnaire aggregator data in
        print ("      Extracted data from " +:+ file_name) ;;;
        ret aggregator
    | None =>
        print ("      Failed to extract data from " +:+ file_name) ;;;
        ret aggregator
    end
  else
    print ("      Failed to download " +:+ file_name) ;;;
    ret aggregator.

(** The body of the loop over the remote folders. *)
Definition remote_folder (env : Env) (temp_dir : string)
    (aggregator : DataAggregator) (folder : SPItem) : M DataAggregator :=
  let folder_name := prop_get folder "Name" in
  let folder_url := prop_get folder "ServerRelativeUrl" in
  print (nl +:+ "Processing folder: " +:+ folder_name) ;;;
  excel_files <- Remote.get_excel_files_in_folder env folder_url ;;
  print ("  Found " +:+ str_of_nat (length excel_files) +:+ " Excel file(s)") ;;;
  for_each excel_files (remote_file env temp_dir folder_name) aggregator.

(** The [mode == 'sharepoint'] branch of [main], from the established
    connection on; [temp_dir] is the scratch directory of the run. *)
Definition main_sharepoint (env : Env) (temp_dir folder_path output_file : string)
    : M DataAggregator :=
  let aggregator := init in
  print (nl +:+ "Scanning folder: " +:+ folder_path) ;;;
  folders <- Remote.get_folders_in_path env folder_path ;;
  print ("Found " +:+ str_of_nat (length folders) +:+ " folders") ;;;
  aggregator <- for_each folders (remote_folder env temp_dir) aggregator ;;
  finish env aggregator output_file.

End Pipeline.
Import Pipeline.

(* ===================================================================== *)
(** ** Concrete stores used by the examples *)
(* ===================================================================== *)

Module Examples.

Definition folder_entry (parent name : string) : DirEntry :=
  {| e_path := path_join parent name; e_name := name;
     e_is_dir := true; e_is_file := false |}.

Definition file_entry (parent name : string) : DirEntry :=
  {| e_path := path_join parent name; e_name := name;
     e_is_dir := false; e_is_file := true |}.

Definition sp_item (url name : string) : SPItem :=
  {| properties := {[ "Name" := name; "ServerRelativeUrl" := url ]} |}.

(** A world with the given files and nothing printed, open or written. *)
Definition fresh (d : gmap string FileData) : World :=
  {| stdout := []; disk := d; open_workbooks := []; artifacts := ∅ |}.

(** The scenario of the specification: units Unit-A (one file, r1.xlsx)
    and Unit-B (empty); r1.xlsx holds B1, C1, D1, C3 and D3 only. *)
Definition r1_cells : gmap string cell_value :=
  {[ "B1" := VStr "App1"; "C1" := VStr "Alice"; "D1" := VStr "Bob";
     "C3" := VStr "Yes"; "D3" := VStr "ok" ]}.

Definition scenario_env : Env :=
  {| iterdir := fun p =>
       if String.eqb p "/root" then
         inr [folder_entry "/root" "Unit-A"; folder_entry "/root" "Unit-B"]
       else if String.eqb p "/root/Unit-A" then
         inr [file_entry "/root/Unit-A" "r1.xlsx"]
       else if String.eqb p "/root/Unit-B" then inr []
       else inl ("[Errno 2] No such file or directory: '" +:+ p +:+ "'");
     sp_folders := fun _ => inl "not connected";
     sp_files := fun _ => inl "not connected";
     sp_open_binary := fun _ => inl "not connected";
     to_excel_error := fun _ => None |}.

Definition scenario_world : World :=
  fresh {[ "/root/Unit-A/r1.xlsx" := Book {| active := Worksheet r1_cells |} ]}.

(** A folder that holds one good questionnaire with a question text in
    B3, one file that is not a workbook, and one workbook whose active
    sheet is a chart sheet. *)
Definition q_cells : gmap string cell_value :=
  {[ "B1" := VStr "Payroll"; "C1" := VStr "Carol"; "D1" := VStr "Dan";
     "B3" := VStr "Is it safe?"; "C3" := VBool true; "D3" := VInt 7;
     "B19" := VStr "Last one"; "C19" := VStr "No" ]}.

Definition mixed_env : Env :=
  {| iterdir := fun p =>
       if String.eqb p "/data" then inr [folder_entry "/data" "Unit-X"]
       else if String.eqb p "/data/Unit-X" then
         inr [file_entry "/data/Unit-X" "good.xlsx";
              file_entry "/data/Unit-X" "broken.xlsx";
              file_entry "/data/Unit-X" "chart.xlsx"]
       else inl ("[Errno 2] No such file or directory: '" +:+ p +:+ "'");
     sp_folders := fun _ => inl "not connected";
     sp_files := fun _ => inl "not connected";
     sp_open_binary := fun _ => inl "not connected";
     to_excel_error := fun _ => None |}.

Definition mixed_world : World :=
  fresh {[ "/data/Unit-X/good.xlsx" := Book {| active := Worksheet q_cells |};
           "/data/Unit-X/broken.xlsx" := Corrupt "File is not a zip file";
           "/data/Unit-X/chart.xlsx" := Book {| active := Chartsheet |} ]}.

(** A local folder and a remote folder that list the same three names. *)
Definition names_env : Env :=
  {| iterdir := fun _ =>
       inr [file_entry "/u" "REPORT.XLSX"; file_entry "/u" ".xlsx";
            file_entry "/u" "~$lock.xlsx"];
     sp_folders := fun _ => inr [];
     sp_files := fun _ =>
       inr [sp_item "/u/REPORT.XLSX" "REPORT.XLSX"; sp_item "/u/.xlsx" ".xlsx";
            sp_item "/u/~$lock.xlsx" "~$lock.xlsx"];
     sp_open_binary := fun _ => inl "HTTP 404";
     to_excel_error := fun _ => None |}.

(** The local disk cannot be listed while the remote store answers. *)
Definition local_down_env : Env :=
  {| iterdir := fun _ => inl "[Errno 13] Permission denied";
     sp_folders := fun _ => inr [sp_item "/sites/q/Unit-A" "Unit-A"];
     sp_files := fun _ => inr [sp_item "/sites/q/Unit-A/a.xlsx" "a.xlsx"];
     sp_open_binary := fun _ => inr (Book {| active := Worksheet r1_cells |});
     to_excel_error := fun _ => None |}.

(** Stores on which every enumeration fails. *)
Definition failing_env : Env :=
  {| iterdir := fun _ => inl "[Errno 13] Permission denied";
     sp_folders := fun _ => inl "HTTP 503";
     sp_files := fun _ => inl "HTTP 503";
     sp_open_binary := fun _ => inl "HTTP 503";
     to_excel_error := fun _ => None |}.

End Examples.
Import Examples.

(* ===================================================================== *)
(** ** The vocabulary of the specification *)
(* ===================================================================== *)

Module Spec.

(** The number of question rows of the layout. *)
Definition N : nat := 17.

(** The header of the output contract: four metadata columns, then
    Q1..Q17, then COMM Q1..COMM Q17. *)
Definition expected_header : list string :=
  ["Application"; "Answered"; "App Responsible"; "Deputy"]
    ++ map (fun i => "Q" +:+ str_of_nat i) (seq 1 N)
    ++ map (fun i => "COMM Q" +:+ str_of_nat i) (seq 1 N).

(** The output row of a record: metadata, then the answers, then the
    comments, each group in the order of the record's sequence. *)
Definition flat_row (r : Questionnaire) : list cell_value :=
  [application r; responsible r; responsible r; deputy r]
    ++ map answer (questions_answers r)
    ++ map comment (questions_answers r).

(** A genuine data file by name: extension .xlsx or .xls compared
    without regard to case, and no temporary-file marker in front. *)
Definition accepts_name (name : string) : bool :=
  str_in (lower (suffix name)) [".xlsx"; ".xls"]
  && negb (startswith name "~$").

(** The content of a cell, absent when the sheet has nothing there. *)
Definition cell_or_none (cells : gmap string cell_value) (coord : string)
    : cell_value :=
  default VNone (cells !! coord).

(** The question row the layout prescribes for a sheet row. *)
Definition row_of_sheet (cells : gmap string cell_value) (row : nat) : QA :=
  {| question := cell_or_none cells ("B" +:+ str_of_nat row);
     answer := cell_or_none cells ("C" +:+ str_of_nat row);
     comment := cell_or_none cells ("D" +:+ str_of_nat row) |}.

(** The record the layout prescribes for a worksheet: metadata from
    B1, C1 and D1, question rows from the sheet rows 3 to 19. *)
Definition record_of_sheet (unit_name : string)
    (cells : gmap string cell_value) : Questionnaire :=
  {| source_folder := unit_name;
     application := cell_or_none cells "B1";
     responsible := cell_or_none cells "C1";
     deputy := cell_or_none cells "D1";
     questions_answers := map (row_of_sheet cells) (seq 3 N) |}.

(** Opening the file fails with [e], or it opens and reading it does. *)
Definition fails_with (d : gmap string FileData) (file_path : string)
    (e : exn) : Prop :=
  load_result d file_path = inl e
  \/ exists wb, load_result d file_path = inr wb
                /\ cell_read (active wb) "B1" = inl e.

(** A record with the question texts blanked out. *)
Definition forget_questions (r : Questionnaire) : Questionnaire :=
  {| source_folder := source_folder r;
     application := application r;
     responsible := responsible r;
     deputy := deputy r;
     questions_answers :=
       map (fun qa => {| question := VNone; answer := answer qa;
                         comment := comment qa |})
           (questions_answers r) |}.

(** Every record has the fixed number of question rows. *)
Definition well_formed (all : list Questionnaire) : Prop :=
  Forall (fun r => length (questions_answers r) = N) all.

End Spec.
Import Spec.

(* ===================================================================== *)
(** ** What a traversal is expected to collect *)
(* ===================================================================== *)

Module Discovery.

(** The record a path on the disk yields, if any: the file has to load
    and its active sheet has to be a worksheet. *)
Definition extracted (d : gmap string FileData) (unit_name file_path : string)
    : option Questionnaire :=
  match load_result d file_path with
  | inl _ => None
  | inr wb =>
      match active wb with
      | Worksheet cells => Some (record_of_sheet unit_name cells)
      | _ => None
      end
  end.

(** The folders and files a local listing yields; nothing when the
    enumeration fails. *)
Definition listed_units (env : Env) (base_path : string) : list DirEntry :=
  match iterdir env base_path with
  | inl _ => []
  | inr entries => List.filter Local.is_unit_folder entries
  end.

Definition listed_files (env : Env) (folder : DirEntry) : list DirEntry :=
  match iterdir env (e_path folder) with
  | inl _ => []
  | inr entries => List.filter Local.is_excel_file entries
  end.

(** The records of a local tree in discovery order: units in listing
    order, files within a unit in listing order, unreadable files left
    out. *)
Definition local_report (env : Env) (d : gmap string FileData)
    (base_path : string) : list Questionnaire :=
  flat_map
    (fun folder =>
       omap (fun file => extracted d (e_name folder) (e_path file))
            (listed_files env folder))
    (listed_units env base_path).

(** The same for the remote store. *)
Definition remote_units (env : Env) (folder_path : string) : list SPItem :=
  match sp_folders env folder_path with
  | inl _ => []
  | inr folders => folders
  end.

Definition remote_listed_files (env : Env) (folder : SPItem) : list SPItem :=
  match sp_files env (prop_get folder "ServerRelativeUrl") with
  | inl _ => []
  | inr files => List.filter Remote.is_excel_file files
  end.

(** The record a remote file yields, if any: the download has to
    succeed and the content has to be a workbook with a worksheet. *)
Definition remote_extracted (env : Env) (unit_name : string) (file : SPItem)
    : option Questionnaire :=
  match sp_open_binary env (prop_get file "ServerRelativeUrl") with
  | inr (Book wb) =>
      match active wb with
      | Worksheet cells => Some (record_of_sheet unit_name cells)
      | _ => None
      end
  | _ => None
  end.

Definition remote_report (env : Env) (folder_path : string) : list Questionnaire :=
  flat_map
    (fun folder =>
       omap (remote_extracted env (prop_get folder "Name"))
            (remote_listed_files env folder))
    (remote_units env folder_path).

(** The coordinates the fixed layout reads. *)
Definition layout_coords : list string :=
  ["B1"; "C1"; "D1"]
    ++ flat_map (fun row => ["B" +:+ str_of_nat row; "C" +:+ str_of_nat row;
                             "D" +:+ str_of_nat row])
                (seq 3 17).

(** The header for records with [n] question rows. *)
Definition header_for (n : nat) : list string :=
  ["Application"; "Answered"; "App Responsible"; "Deputy"]
    ++ map (fun i => "Q" +:+ str_of_nat i) (seq 1 n)
    ++ map (fun i => "COMM Q" +:+ str_of_nat i) (seq 1 n).

(** A record filed under another unit name. *)
Definition relabel (unit_name : string) (r : Questionnaire) : Questionnaire :=
  {| source_folder := unit_name;
     application := application r;
     responsible := responsible r;
     deputy := deputy r;
     questions_answers := questions_answers r |}.

(** Neither the disk nor the written artifacts differ. *)
Definition same_files (w w' : World) : Prop :=
  disk w' = disk w /\ artifacts w' = artifacts w.

End Discovery.
Import Discovery.

(* ===================================================================== *)
(** ** The process around the traversal: [connect] and [main] *)
(* ===================================================================== *)

Module Host.

(** What the process finds around it. *)
Record Host : Type := {
  (* [os.environ] once [load_dotenv()] has run *)
  environ : gmap string string;
  (* [str(Path.cwd())] *)
  cwd : string;
  (* [str(Path(p).resolve())] *)
  resolve : string -> string;
  (* [SHAREPOINT_AVAILABLE]: the optional import succeeded *)
  sharepoint_available : bool;
  (* [AuthenticationContext(site).acquire_token_for_user(user, password)] *)
  acquire_token : string -> string -> string -> exn + bool;
  (* loading [ctx.web], executing the query and reading
     [web.properties['Title']] for a site *)
  site_title : string -> exn + string;
  (* the directory [tempfile.TemporaryDirectory()] hands out *)
  temp_dir : string
}.

(** [os.getenv(key)]. *)
Definition getenv (host : Host) (key : string) : option string :=
  environ host !! key.

(** [os.getenv(key, fallback)]. *)
Definition getenv_or (host : Host) (key fallback : string) : string :=
  default fallback (environ host !! key).

(** The truth value of an [Optional[str]]: [None] and [''] are false. *)
Definition truthy (v : option string) : bool :=
  match v with
  | None => false
  | Some s => negb (String.eqb s "")
  end.

(** The object state of [SharePointConnector]. *)
Record Connector : Type := {
  site_url : string;
  username : string;
  password : string;
  ctx : option string       (* the site the client context is bound to *)
}.

(** [SharePointConnector.__init__]. *)
Definition new_connector (site user pass : string) : Connector :=
  {| site_url := site; username := user; password := pass; ctx := None |}.

(** The connector after the statements of [connect] that assign to it:
    [self.ctx] is set as soon as the token has been acquired, before the
    test query runs. *)
Definition connected_state (host : Host) (self : Connector) : Connector :=
  match acquire_token host (site_url self) (username self) (password self) with
  | inr true =>
      {| site_url := site_url self; username := username self;
         password := password self; ctx := Some (site_url self) |}
  | _ => self
  end.

(** [SharePointConnector.connect]: the returned flag. *)
Definition connect (host : Host) (self : Connector) : M bool :=
  try_except
    (acquired <- lift (acquire_token host (site_url self) (username self)
                                     (password self)) ;;
     if (acquired : bool) then
       title <- lift (site_title host (site_url self)) ;;
       print ("Connected to SharePoint site: " +:+ title) ;;;
       ret true
     else
       print "Authentication failed" ;;;
       ret false)
    (fun e =>
       print ("Error connecting to SharePoint: " +:+ e) ;;;
       ret false).

(** How the process ends: [main] returns, [sys.exit(status)] is called,
    or an exception leaves [main]. *)
Inductive ending : Type :=
| Finished (aggregator : DataAggregator)
| Exited (status : Z)
| Uncaught (e : exn).

Definition of_outcome (r : outcome DataAggregator * World) : ending * World :=
  match r with
  | (Ok aggregator, w) => (Finished aggregator, w)
  | (Raise e, w) => (Uncaught e, w)
  end.

(** A sequence of [print] calls. *)
Definition say (lines : list string) (w : World) : World :=
  set_stdout (fun out => out ++ lines) w.

(** Leaving the [with tempfile.TemporaryDirectory()] block removes the
    directory with everything below it. *)
Definition below (dir path : string) : bool := startswith path (dir +:+ "/").

Definition cleanup (dir : string) (w : World) : World :=
  set_disk (fun d => filter (fun kv => below dir (fst kv) = false) d) w.

(** The [mode == 'local'] branch of [main]. *)
Definition local_branch (host : Host) (env : Env) (output_file : string)
    (w : World) : ending * World :=
  let w := say ["Mode: Local Filesystem"] w in
  let base_path :=
    match getenv host "BASE_PATH" with
    | Some p => if String.eqb p "" then cwd host else resolve host p
    | None => cwd host
    end in
  let w := say ["Scanning folders in: " +:+ base_path] w in
  (* LocalFolderProcessor.__init__ resolves the path once more *)
  let processor_base := resolve host base_path in
  of_outcome
    ((folders <- Local.get_folders env processor_base ;;
      print ("Found " +:+ str_of_nat (length folders) +:+ " folders") ;;;
      aggregator <- for_each folders (local_folder env) init ;;
      finish env aggregator output_file) w).

(** The [mode == 'sharepoint'] branch of [main]. *)
Definition sharepoint_branch (host : Host) (env : Env) (output_file : string)
    (w : World) : ending * World :=
  if negb (sharepoint_available host) then
    (Exited 1,
     say ["Error: SharePoint mode requires Office365-REST-Python-Client package";
          "Install it with: pip install Office365-REST-Python-Client"] w)
  else
    let w := say ["Mode: SharePoint"] w in
    let site := getenv host "SHAREPOINT_SITE_URL" in
    let user := getenv host "SHAREPOINT_USERNAME" in
    let pass := getenv host "SHAREPOINT_PASSWORD" in
    let folder_path := getenv host "QUESTIONNAIRE_FOLDER_PATH" in
    if negb (forallb truthy [site; user; pass; folder_path]) then
      (Exited 1,
       say ["Error: Missing required configuration for SharePoint mode. Please check your .env file.";
            "Required variables: SHAREPOINT_SITE_URL, SHAREPOINT_USERNAME, SHAREPOINT_PASSWORD, QUESTIONNAIRE_FOLDER_PATH"]
           w)
    else
      let connector := new_connector (default "" site) (default "" user)
                                     (default "" pass) in
      match connect host connector w with
      | (Raise e, w) => (Uncaught e, w)
      | (Ok false, w) => (Exited 1, say ["Failed to connect to SharePoint"] w)
      | (Ok true, w) =>
          let folder_path := default "" folder_path in
          match (print (nl +:+ "Scanning folder: " +:+ folder_path) ;;;
                 folders <- Remote.get_folders_in_path env folder_path ;;
                 print ("Found " +:+ str_of_nat (length folders) +:+ " folders") ;;;
                 for_each folders (remote_folder env (temp_dir host)) init) w with
          | (Raise e, w) => (Uncaught e, cleanup (temp_dir host) w)
          | (Ok aggregator, w) =>
              of_outcome (finish env aggregator output_file
                                 (cleanup (temp_dir host) w))
          end
      end.

(** [main]. *)
Definition main (host : Host) (env : Env) (w : World) : ending * World :=
  let mode := lower (getenv_or host "MODE" "local") in
  let output_file := getenv_or host "OUTPUT_FILE" "aggregated_questionnaires.xlsx" in
  let w := say ["Questionnaire Aggregator"; repeat_str "=" 50] w in
  if String.eqb mode "local" then local_branch host env output_file w
  else if String.eqb mode "sharepoint" then sharepoint_branch host env output_file w
  else
    (Exited 1,
     say ["Error: Unknown mode '" +:+ mode
            +:+ "'. Valid modes are 'local' or 'sharepoint'"] w).

(** The values [main] derives from the environment. *)
Definition mode_of (host : Host) : string :=
  lower (getenv_or host "MODE" "local").

Definition output_of (host : Host) : string :=
  getenv_or host "OUTPUT_FILE" "aggregated_questionnaires.xlsx".


Definition remote_root (host : Host) : string :=
  default "" (getenv host "QUESTIONNAIRE_FOLDER_PATH").

(** The same host with another value of MODE. *)
Definition with_mode (m : string) (host : Host) : Host :=
  {| environ := <["MODE" := m]> (environ host);
     cwd := cwd host;
     resolve := resolve host;
     sharepoint_available := sharepoint_available host;
     acquire_token := acquire_token host;
     site_title := site_title host;
     temp_dir := temp_dir host |}.

(** The four settings of the remote mode are all set and non-empty. *)
Definition configured (host : Host) : bool :=
  forallb truthy [getenv host "SHAREPOINT_SITE_URL";
                  getenv host "SHAREPOINT_USERNAME";
                  getenv host "SHAREPOINT_PASSWORD";
                  getenv host "QUESTIONNAIRE_FOLDER_PATH"].

(** The token is granted and the site answers the test query. *)
Definition reachable (host : Host) (self : Connector) : bool :=
  match acquire_token host (site_url self) (username self) (password self) with
  | inr true =>
      match site_title host (site_url self) with
      | inr _ => true
      | inl _ => false
      end
  | _ => false
  end.

(** The connector [main] builds from the environment. *)
Definition configured_connector (host : Host) : Connector :=
  new_connector (default "" (getenv host "SHAREPOINT_SITE_URL"))
                (default "" (getenv host "SHAREPOINT_USERNAME"))
                (default "" (getenv host "SHAREPOINT_PASSWORD")).


End Host.
Import Host.

Module HostExamples.

(** A host set up for the scenario tree, with the mode in capitals. *)
Definition local_host : Host :=
  {| environ := {[ "MODE" := "Local"; "BASE_PATH" := "/root";
                   "OUTPUT_FILE" := "out.xlsx" ]};
     cwd := "/home/user";
     resolve := fun p => p;
     sharepoint_available := false;
     acquire_token := fun _ _ _ => inl "no network";
     site_title := fun _ => inl "no network";
     temp_dir := "/tmp/run" |}.

(** A host asked for the remote mode without a password. *)
Definition half_configured_host : Host :=
  {| environ := {[ "MODE" := "sharepoint";
                   "SHAREPOINT_SITE_URL" := "https://example.org/sites/q";
                   "SHAREPOINT_USERNAME" := "carol";
                   "SHAREPOINT_PASSWORD" := "";
                   "QUESTIONNAIRE_FOLDER_PATH" := "/sites/q/Shared" ]};
     cwd := "/home/user";
     resolve := fun p => p;
     sharepoint_available := true;
     acquire_token := fun _ _ _ => inr true;
     site_title := fun _ => inr "Questionnaires";
     temp_dir := "/tmp/run" |}.

(** A fully configured remote host whose site answers. *)
Definition remote_host : Host :=
  {| environ := {[ "MODE" := "SharePoint";
                   "SHAREPOINT_SITE_URL" := "https://example.org/sites/q";
                   "SHAREPOINT_USERNAME" := "carol";
                   "SHAREPOINT_PASSWORD" := "secret";
                   "QUESTIONNAIRE_FOLDER_PATH" := "/sites/q/Shared" ]};
     cwd := "/home/user";
     resolve := fun p => p;
     sharepoint_available := true;
     acquire_token := fun _ _ _ => inr true;
     site_title := fun _ => inr "Questionnaires";
     temp_dir := "/tmp/run" |}.

(** A remote library with one unit holding a good workbook, a file whose
    download fails and a file that is not a workbook. *)
Definition remote_env : Env :=
  {| iterdir := fun _ => inl "not used";
     sp_folders := fun p =>
       if String.eqb p "/sites/q/Shared" then
         inr [sp_item "/sites/q/Shared/Unit-R" "Unit-R"]
       else inl "HTTP 404";
     sp_files := fun p =>
       if String.eqb p "/sites/q/Shared/Unit-R" then
         inr [sp_item "/sites/q/Shared/Unit-R/a.xlsx" "a.xlsx";
              sp_item "/sites/q/Shared/Unit-R/b.xlsx" "b.xlsx";
              sp_item "/sites/q/Shared/Unit-R/c.xls" "c.xls"]
       else inl "HTTP 404";
     sp_open_binary := fun u =>
       if String.eqb u "/sites/q/Shared/Unit-R/a.xlsx" then
         inr (Book {| active := Worksheet q_cells |})
       else if String.eqb u "/sites/q/Shared/Unit-R/c.xls" then
         inr (Corrupt "File is not a zip file")
       else inl "HTTP 500";
     to_excel_error := fun _ => None |}.

(** The scenario tree with a destination that cannot be written. *)
Definition read_only_env : Env :=
  {| iterdir := iterdir scenario_env;
     sp_folders := sp_folders scenario_env;
     sp_files := sp_files scenario_env;
     sp_open_binary := sp_open_binary scenario_env;
     to_excel_error := fun p => Some ("[Errno 13] Permission denied: '" +:+ p +:+ "'") |}.

(** A host with nothing set but the base path and the destination. *)
Definition scenario_host_unset : Host :=
  {| environ := {[ "BASE_PATH" := "/root"; "OUTPUT_FILE" := "out.xlsx" ]};
     cwd := "/home/user";
     resolve := fun p => p;
     sharepoint_available := false;
     acquire_token := fun _ _ _ => inl "no network";
     site_title := fun _ => inl "no network";
     temp_dir := "/tmp/run" |}.

End HostExamples.
Import HostExamples.

(* ===================================================================== *)
(** ** Running computations *)
(* ===================================================================== *)

Ltac run :=
  unfold try_except, bind, ret, raise, lift, print; simpl.

(** A loop that appends the accepted elements is a filter. *)
Lemma append_loop_filter {A} (p : A -> bool) (l acc : list A) :
  fold_left (fun out x => if p x then out ++ [x] else out) l acc
  = acc ++ List.filter p l.
Proof.
  revert acc. induction l as [|x l IH]; intros acc; simpl.
  - by rewrite app_nil_r.
  - rewrite IH. destruct (p x); [|done]. by rewrite <- app_assoc.
Qed.

Lemma append_loop_map {A B} (f : A -> B) (l : list A) (acc : list B) :
  fold_left (fun out x => out ++ [f x]) l acc = acc ++ map f l.
Proof.
  revert acc. induction l as [|x l IH]; intros acc; simpl.
  - by rewrite app_nil_r.
  - rewrite IH. by rewrite <- app_assoc.
Qed.

Lemma build_rows_map all : build_rows all = map build_row all.
Proof. unfold build_rows. by rewrite append_loop_map. Qed.

(* ===================================================================== *)
(** ** File listing *)
(* ===================================================================== *)

(** The local listing returns exactly the regular files the
    specification accepts by name, in the order of the directory. *)
Lemma local_listing_filter env folder_path entries w :
  iterdir env folder_path = inr entries ->
  Local.get_excel_files_in_folder env folder_path w
  = (Ok (List.filter (fun f => e_is_file f && accepts_name (e_name f)) entries), w).
Proof.
  intros H. unfold Local.get_excel_files_in_folder. run. rewrite H. simpl.
  rewrite append_loop_filter. simpl. do 2 f_equal.
  apply filter_ext. intros f. unfold Local.is_excel_file, accepts_name.
  by rewrite andb_assoc.
Qed.

(** The remote listing returns the files whose name ends in the
    lower-case ".xlsx" or ".xls" and does not begin with "~$". *)
Lemma remote_listing_filter env folder_url files w :
  sp_files env folder_url = inr files ->
  Remote.get_excel_files_in_folder env folder_url w
  = (Ok (List.filter Remote.is_excel_file files), w).
Proof.
  intros H. unfold Remote.get_excel_files_in_folder. run. rewrite H. simpl.
  by rewrite append_loop_filter.
Qed.

(** C3, evaluated where the two variants part: both stores list
    REPORT.XLSX, .xlsx and ~$lock.xlsx. The local variant compares the
    extension without regard to case and returns REPORT.XLSX only; the
    remote variant compares the end of the name as written, so it drops
    REPORT.XLSX and returns the extension-less name .xlsx instead. Both
    drop the name beginning with the temporary-file marker. *)
Theorem C3_remote_listing_differs_from_local :
  fst (Local.get_excel_files_in_folder names_env "/u" (fresh ∅))
  = Ok [file_entry "/u" "REPORT.XLSX"]
  /\ fst (Remote.get_excel_files_in_folder names_env "/u" (fresh ∅))
     = Ok [sp_item "/u/.xlsx" ".xlsx"]
  /\ accepts_name "REPORT.XLSX" = true
  /\ accepts_name ".xlsx" = false
  /\ accepts_name "~$lock.xlsx" = false.
Proof. repeat split; vm_compute; reflexivity. Qed.

(* ===================================================================== *)
(** ** Enumeration failures *)
(* ===================================================================== *)

(** C7: each listing on its own. Whenever the enumeration behind one
    listing operation raises (an I/O, network or permission error with
    text [e]), whatever the other stores do, that operation returns the
    empty list and prints one warning naming the location and the cause.
    Its caller goes on with zero entries: a folder whose files cannot be
    listed costs three printed lines and leaves the aggregator, the
    disk, the artifacts and the open archives as they were, so the loop
    over the folders continues; a run whose units cannot be listed
    prints "Found 0 folders", exports nothing ("No data to export") and
    completes with an empty report and the closing summary, in the local
    and in the remote branch alike. *)
Theorem C7_enumeration_failure_is_empty_and_non_fatal
    (env : Env) (w : World) :
  (forall p e, iterdir env p = inl e ->
     Local.get_folders env p w
     = (Ok [], set_stdout (fun o => o ++ ["Error getting folders from " +:+ p +:+ ": " +:+ e]) w))
  /\ (forall p e, iterdir env p = inl e ->
        Local.get_excel_files_in_folder env p w
        = (Ok [], set_stdout (fun o => o ++ ["Error getting files from " +:+ p +:+ ": " +:+ e]) w))
  /\ (forall p e, sp_folders env p = inl e ->
        Remote.get_folders_in_path env p w
        = (Ok [], set_stdout (fun o => o ++ ["Error getting folders from " +:+ p +:+ ": " +:+ e]) w))
  /\ (forall p e, sp_files env p = inl e ->
        Remote.get_excel_files_in_folder env p w
        = (Ok [], set_stdout (fun o => o ++ ["Error getting files from " +:+ p +:+ ": " +:+ e]) w))
  /\ (forall agg folder e, iterdir env (e_path folder) = inl e ->
        exists w',
          local_folder env agg folder w = (Ok agg, w')
          /\ stdout w' = stdout w ++
               [nl +:+ "Processing folder: " +:+ e_name folder;
                "Error getting files from " +:+ e_path folder +:+ ": " +:+ e;
                "  Found 0 Excel file(s)"]
          /\ disk w' = disk w /\ artifacts w' = artifacts w
          /\ open_workbooks w' = open_workbooks w)
  /\ (forall temp_dir agg folder e,
        sp_files env (prop_get folder "ServerRelativeUrl") = inl e ->
        exists w',
          remote_folder env temp_dir agg folder w = (Ok agg, w')
          /\ stdout w' = stdout w ++
               [nl +:+ "Processing folder: " +:+ prop_get folder "Name";
                "Error getting files from " +:+ prop_get folder "ServerRelativeUrl"
                   +:+ ": " +:+ e;
                "  Found 0 Excel file(s)"]
          /\ disk w' = disk w /\ artifacts w' = artifacts w
          /\ open_workbooks w' = open_workbooks w)
  /\ (forall base_path output_file e, iterdir env base_path = inl e ->
        exists w',
          main_local env base_path output_file w = (Ok init, w')
          /\ stdout w' = stdout w ++
               ["Mode: Local Filesystem";
                "Scanning folders in: " +:+ base_path;
                "Error getting folders from " +:+ base_path +:+ ": " +:+ e;
                "Found 0 folders";
                nl +:+ repeat_str "=" 50;
                "No data to export";
                nl +:+ "Processing complete! Total questionnaires processed: 0"]
          /\ disk w' = disk w /\ artifacts w' = artifacts w
          /\ open_workbooks w' = open_workbooks w)
  /\ (forall temp_dir folder_path output_file e,
        sp_folders env folder_path = inl e ->
        exists w',
          main_sharepoint env temp_dir folder_path output_file w = (Ok init, w')
          /\ stdout w' = stdout w ++
               [nl +:+ "Scanning folder: " +:+ folder_path;
                "Error getting folders from " +:+ folder_path +:+ ": " +:+ e;
                "Found 0 folders";
                nl +:+ repeat_str "=" 50;
                "No data to export";
                nl +:+ "Processing complete! Total questionnaires processed: 0"]
          /\ disk w' = disk w /\ artifacts w' = artifacts w
          /\ open_workbooks w' = open_workbooks w).
Proof.
  repeat apply conj.
  - intros p e H. unfold Local.get_folders. run. by rewrite H.
  - intros p e H. unfold Local.get_excel_files_in_folder. run. by rewrite H.
  - intros p e H. unfold Remote.get_folders_in_path. run. by rewrite H.
  - intros p e H. unfold Remote.get_excel_files_in_folder. run. by rewrite H.
  - intros agg folder e H.
    unfold local_folder, Local.get_excel_files_in_folder. run. rewrite H. simpl.
    eexists. split; [reflexivity|]. simpl. rewrite <- !app_assoc. by repeat split.
  - intros temp_dir agg folder e H.
    unfold remote_folder, Remote.get_excel_files_in_folder. run. rewrite H. simpl.
    eexists. split; [reflexivity|]. simpl. rewrite <- !app_assoc. by repeat split.
  - intros base_path output_file e H.
    unfold main_local, Local.get_folders, finish, export_to_excel. run.
    rewrite H. simpl.
    eexists. split; [reflexivity|]. simpl. rewrite <- !app_assoc. by repeat split.
  - intros temp_dir folder_path output_file e H.
    unfold main_sharepoint, Remote.get_folders_in_path, finish, export_to_excel.
    run. rewrite H. simpl.
    eexists. split; [reflexivity|]. simpl. rewrite <- !app_assoc. by repeat split.
Qed.

(** A local tree that cannot be listed beside a remote store that
    answers, and the reverse: each failure is handled where it occurs. *)
Lemma C7_witness :
  Local.get_folders local_down_env "/root" (fresh ∅)
  = (Ok [], set_stdout
              (fun o => o ++ ["Error getting folders from /root: [Errno 13] Permission denied"])
              (fresh ∅))
  /\ (exists w',
        main_local local_down_env "/root" "out.xlsx" (fresh ∅) = (Ok init, w')
        /\ artifacts w' = ∅)
  /\ (exists w',
        main_sharepoint failing_env "/tmp/run" "/sites/q" "out.xlsx" (fresh ∅)
        = (Ok init, w')
        /\ artifacts w' = ∅)
  /\ (exists w',
        local_folder failing_env init (folder_entry "/root" "Unit-A") (fresh ∅)
        = (Ok init, w'))
  /\ (exists w',
        remote_folder failing_env "/tmp/run" init
          (sp_item "/sites/q/Unit-A" "Unit-A") (fresh ∅)
        = (Ok init, w')).
Proof.
  destruct (C7_enumeration_failure_is_empty_and_non_fatal local_down_env (fresh ∅))
    as (Hfolders & _ & _ & _ & _ & _ & Hlocal & _).
  destruct (C7_enumeration_failure_is_empty_and_non_fatal failing_env (fresh ∅))
    as (_ & Hfiles & Hrfolders & Hrfiles & Hfolder & Hrfolder & _ & Hremote).
  split; [exact (Hfolders "/root" "[Errno 13] Permission denied" eq_refl)|].
  split.
  { destruct (Hlocal "/root" "out.xlsx" "[Errno 13] Permission denied" eq_refl)
      as (w' & Hrun & _ & _ & Ha & _).
    exists w'. split; [exact Hrun | exact Ha]. }
  split.
  { destruct (Hremote "/tmp/run" "/sites/q" "out.xlsx" "HTTP 503" eq_refl)
      as (w' & Hrun & _ & _ & Ha & _).
    exists w'. split; [exact Hrun | exact Ha]. }
  split.
  { destruct (Hfolder init (folder_entry "/root" "Unit-A")
                "[Errno 13] Permission denied" eq_refl) as (w' & Hrun & _).
    exists w'. exact Hrun. }
  destruct (Hrfolder "/tmp/run" init (sp_item "/sites/q/Unit-A" "Unit-A")
              "HTTP 503" eq_refl) as (w' & Hrun & _).
  exists w'. exact Hrun.
Defined.

(* ===================================================================== *)
(** ** Extraction *)
(* ===================================================================== *)

(** Reading the question rows of a worksheet never raises, touches
    nothing, and yields one row per sheet row, in order. *)
Lemma read_rows_worksheet cells rows w :
  for_collect rows (read_row (Worksheet cells)) w
  = (Ok (map (row_of_sheet cells) rows), w).
Proof.
  induction rows as [|row rows IH]; [done|].
  simpl. unfold bind at 1. unfold read_row at 1. run. by rewrite IH.
Qed.

(** Success path: the file opens and its active sheet is a worksheet. *)
Lemma extract_data_worksheet file_path unit_name w wb cells :
  load_result (disk w) file_path = inr wb ->
  active wb = Worksheet cells ->
  extract_data file_path unit_name w
  = (Ok (Some (record_of_sheet unit_name cells)), w).
Proof.
  intros Hload Hact. unfold extract_data, extract_body, load_workbook. run.
  rewrite Hload. simpl. rewrite Hact. reflexivity.
Qed.

(** Failure path 1: the file does not open. *)
Lemma extract_data_open_fails file_path unit_name w e :
  load_result (disk w) file_path = inl e ->
  extract_data file_path unit_name w
  = (Ok None,
     set_stdout (fun o => o ++ ["Error extracting data from " +:+ file_path +:+ ": " +:+ e]) w).
Proof.
  intros Hload. unfold extract_data, extract_body, load_workbook. run.
  by rewrite Hload.
Qed.

(** Failure path 2: the file opens and the first cell read raises. *)
Lemma extract_data_read_fails file_path unit_name w wb e :
  load_result (disk w) file_path = inr wb ->
  cell_read (active wb) "B1" = inl e ->
  extract_data file_path unit_name w
  = (Ok None,
     set_stdout (fun o => o ++ ["Error extracting data from " +:+ file_path +:+ ": " +:+ e])
                w).
Proof.
  intros Hload Hread. unfold extract_data, extract_body, load_workbook, cell. run.
  rewrite Hload. simpl. by rewrite Hread.
Qed.

(** The three paths are all there is. *)
Lemma extract_data_cases (file_path : string) (w : World) :
  (exists e, fails_with (disk w) file_path e)
  \/ (exists wb cells, load_result (disk w) file_path = inr wb
                       /\ active wb = Worksheet cells).
Proof.
  unfold fails_with.
  destruct (load_result (disk w) file_path) as [e|wb] eqn:Hload; [eauto|].
  destruct (active wb) as [| |cells] eqn:Hact.
  - left. eexists. right. exists wb. split; [done|]. by rewrite Hact.
  - left. eexists. right. exists wb. split; [done|]. by rewrite Hact.
  - right. eauto.
Qed.

(** A record comes out only on the worksheet path. *)
Lemma extract_data_some_inv file_path unit_name w r w' :
  extract_data file_path unit_name w = (Ok (Some r), w') ->
  exists wb cells,
    load_result (disk w) file_path = inr wb
    /\ active wb = Worksheet cells
    /\ r = record_of_sheet unit_name cells
    /\ w' = w.
Proof.
  intros H.
  destruct (extract_data_cases file_path w)
    as [[e [Hopen | (wb & Hload & Hread)]] | (wb & cells & Hload & Hact)].
  - rewrite (extract_data_open_fails _ _ _ _ Hopen) in H. congruence.
  - rewrite (extract_data_read_fails _ _ _ _ _ Hload Hread) in H. congruence.
  - rewrite (extract_data_worksheet _ _ _ _ _ Hload Hact) in H.
    exists wb, cells. repeat split; congruence.
Qed.

(** C2: every record [extract_data] returns has exactly 17 question
    rows, the i-th of them read from sheet row 3+i (rows 3 to 19 in that
    order), however many of those cells are blank; a blank answer or
    comment cell stays the absent value [VNone], and a filled one keeps
    its value. *)
Theorem C2_question_rows_fixed_length
    (file_path unit_name : string) (w w' : World) (r : Questionnaire)
    (Hok : extract_data file_path unit_name w = (Ok (Some r), w')) :
  length (questions_answers r) = 17
  /\ exists wb cells,
       load_result (disk w) file_path = inr wb
       /\ active wb = Worksheet cells
       /\ questions_answers r = map (row_of_sheet cells) (seq 3 17)
       /\ forall i, i < 17 ->
            exists qa,
              questions_answers r !! i = Some qa
              /\ qa = row_of_sheet cells (3 + i)
              /\ (cells !! ("C" +:+ str_of_nat (3 + i)) = None -> answer qa = VNone)
              /\ (cells !! ("D" +:+ str_of_nat (3 + i)) = None -> comment qa = VNone)
              /\ (forall v, cells !! ("C" +:+ str_of_nat (3 + i)) = Some v -> answer qa = v)
              /\ (forall v, cells !! ("D" +:+ str_of_nat (3 + i)) = Some v -> comment qa = v).
Proof.
  destruct (extract_data_some_inv _ _ _ _ _ Hok) as (wb & cells & Hload & Hact & -> & _).
  split; [reflexivity|].
  exists wb, cells. repeat split; try done.
  intros i Hi. exists (row_of_sheet cells (3 + i)).
  split.
  - unfold record_of_sheet, questions_answers, N.
    rewrite list_lookup_fmap. rewrite lookup_seq_lt by done. reflexivity.
  - repeat split; simpl; unfold cell_or_none.
    + by intros ->.
    + by intros ->.
    + by intros v ->.
    + by intros v ->.
Qed.

Lemma C2_witness :
  length (questions_answers (record_of_sheet "Unit-A" r1_cells)) = 17.
Proof.
  exact (proj1 (C2_question_rows_fixed_length
                  "/root/Unit-A/r1.xlsx" "Unit-A" scenario_world
                  scenario_world
                  (record_of_sheet "Unit-A" r1_cells) eq_refl)).
Defined.

(** Both failure paths at once. *)
Lemma extract_data_fails file_path unit_name w e :
  fails_with (disk w) file_path e ->
  exists w',
    extract_data file_path unit_name w = (Ok None, w')
    /\ stdout w' = stdout w ++
         ["Error extracting data from " +:+ file_path +:+ ": " +:+ e]
    /\ disk w' = disk w
    /\ artifacts w' = artifacts w.
Proof.
  intros [Hopen | (wb & Hload & Hread)].
  - rewrite (extract_data_open_fails _ unit_name _ _ Hopen). eauto.
  - rewrite (extract_data_read_fails _ unit_name _ _ _ Hload Hread). eauto.
Qed.

(** The run keeps going after a failed file: the loop body returns the
    aggregator it was given. *)
Lemma local_file_failure unit_name agg file w e :
  fails_with (disk w) (e_path file) e ->
  exists w',
    local_file unit_name agg file w = (Ok agg, w')
    /\ stdout w' = stdout w ++
         ["    Processing: " +:+ e_name file;
          "Error extracting data from " +:+ e_path file +:+ ": " +:+ e;
          "      Failed to extract data from " +:+ e_name file].
Proof.
  intros Hfail. unfold local_file.
  set (w1 := set_stdout (fun o => o ++ ["    Processing: " +:+ e_name file]) w).
  destruct (extract_data_fails (e_path file) unit_name w1 e Hfail)
    as (w2 & Hrun & Hout & _).
  unfold bind at 1. unfold print at 1. fold w1.
  unfold bind at 1. rewrite Hrun. run.
  eexists. split; [reflexivity|].
  simpl. rewrite Hout. subst w1. simpl. by rewrite <- !app_assoc.
Qed.

(** C4, as the code has it: when opening or reading the spreadsheet
    fails with cause [e], [extract_data] returns normally with the absent
    result (no record, nothing raised), having printed one line with the
    file path and the cause and left the disk and the written artifacts
    alone. The pipeline has no failure counter to increment: for that
    file its loop body prints exactly one "Failed to extract data" line
    and hands on its aggregator unchanged, so every count read from the
    aggregator is the same before and after. *)
Theorem C4_failed_extraction_is_absent_and_logged
    (unit_name : string) (w : World) (e : exn)
    (agg : DataAggregator) (file : DirEntry)
    (Hfail : fails_with (disk w) (e_path file) e) :
  (exists w',
     extract_data (e_path file) unit_name w = (Ok None, w')
     /\ stdout w' = stdout w ++
          ["Error extracting data from " +:+ e_path file +:+ ": " +:+ e]
     /\ disk w' = disk w
     /\ artifacts w' = artifacts w)
  /\ (exists agg' w',
        local_file unit_name agg file w = (Ok agg', w')
        /\ agg' = agg
        /\ (forall counter : DataAggregator -> nat, counter agg' = counter agg)
        /\ stdout w' = stdout w ++
             ["    Processing: " +:+ e_name file;
              "Error extracting data from " +:+ e_path file +:+ ": " +:+ e;
              "      Failed to extract data from " +:+ e_name file])
  /\ returns (extract_data (e_path file) unit_name) w.
Proof.
  split; [|split].
  - by apply extract_data_fails.
  - destruct (local_file_failure unit_name agg file w e Hfail) as (w' & Hrun & Hout).
    exists agg, w'. by repeat split.
  - destruct (extract_data_fails _ unit_name _ _ Hfail) as (w' & Hrun & _).
    unfold returns. rewrite Hrun. eauto.
Qed.

Lemma C4_witness :
  returns (extract_data "/data/Unit-X/broken.xlsx" "Unit-X") mixed_world.
Proof.
  refine (proj2 (proj2 (C4_failed_extraction_is_absent_and_logged
                          "Unit-X" mixed_world "File is not a zip file" init
                          (file_entry "/data/Unit-X" "broken.xlsx") _))).
  left. reflexivity.
Defined.

(** C4 as stated fails. The corrupt file broken.xlsx goes through the
    loop body: extraction gives the absent result, and the aggregator
    that comes out is one on which no counter whatever reads one more
    than before. The whole run over Unit-X, with broken.xlsx and
    chart.xlsx both failing, prints the numbers 1 (folders), 3 (files
    found) and 1 (questionnaires processed) and no count of failures. *)
Lemma C4_counterexample_no_failure_counter :
  fst (extract_data "/data/Unit-X/broken.xlsx" "Unit-X" mixed_world) = Ok None
  /\ (exists agg' w',
        local_file "Unit-X" init (file_entry "/data/Unit-X" "broken.xlsx") mixed_world
        = (Ok agg', w')
        /\ (forall counter : DataAggregator -> nat, counter agg' <> counter init + 1)
        /\ stdout w'
           = ["    Processing: broken.xlsx";
              "Error extracting data from /data/Unit-X/broken.xlsx: File is not a zip file";
              "      Failed to extract data from broken.xlsx"])
  /\ stdout (snd (main_local mixed_env "/data" "out.xlsx" mixed_world))
     = ["Mode: Local Filesystem"; "Scanning folders in: /data";
        "Found 1 folders";
        nl +:+ "Processing folder: Unit-X"; "  Found 3 Excel file(s)";
        "    Processing: good.xlsx"; "      Extracted data from good.xlsx";
        "    Processing: broken.xlsx";
        "Error extracting data from /data/Unit-X/broken.xlsx: File is not a zip file";
        "      Failed to extract data from broken.xlsx";
        "    Processing: chart.xlsx";
        "Error extracting data from /data/Unit-X/chart.xlsx: 'Chartsheet' object is not subscriptable";
        "      Failed to extract data from chart.xlsx";
        nl +:+ repeat_str "=" 50;
        "Aggregated data exported to: out.xlsx";
        nl +:+ "Processing complete! Total questionnaires processed: 1"].
Proof.
  split; [reflexivity|]. split.
  - exists init. eexists. split; [reflexivity|]. split; [|reflexivity].
    intros counter. lia.
  - vm_compute. reflexivity.
Qed.

(** [extract_data] returns on every input: nothing crosses its boundary. *)
Lemma extract_data_total file_path unit_name w :
  returns (extract_data file_path unit_name) w.
Proof.
  unfold returns.
  destruct (extract_data_cases file_path w)
    as [[e Hfail] | (wb & cells & Hload & Hact)].
  - destruct (extract_data_fails _ unit_name _ _ Hfail) as (w' & -> & _). eauto.
  - rewrite (extract_data_worksheet _ unit_name _ _ _ Hload Hact). eauto.
Qed.

(** The two load modes of the library: a read-only load leaves the
    archive open on the workbook, a default load holds none. *)
Lemma load_workbook_modes file_path wb w :
  load_result (disk w) file_path = inr wb ->
  open_workbooks (snd (load_workbook file_path true w))
  = open_workbooks w ++ [file_path]
  /\ open_workbooks (snd (load_workbook file_path false w)) = open_workbooks w.
Proof. intros H. unfold load_workbook. by rewrite H. Qed.

(** C6: whatever the file is, [extract_data] returns, and the archives
    open when it returns are the ones that were open when it was called:
    the workbook it opened holds no archive any more, whether a record
    comes back or the failure is reported. The code loads in the default
    mode, where the file is released by [load_workbook] itself, so the
    path through the [except] clause, which never reaches
    [workbook.close()], leaves nothing open either. *)
Theorem C6_no_workbook_left_open
    (file_path unit_name : string) (w : World) :
  returns (extract_data file_path unit_name) w
  /\ open_workbooks (snd (extract_data file_path unit_name w)) = open_workbooks w
  /\ (forall r w', extract_data file_path unit_name w = (Ok (Some r), w') ->
                   open_workbooks w' = open_workbooks w)
  /\ (forall w', extract_data file_path unit_name w = (Ok None, w') ->
                 open_workbooks w' = open_workbooks w).
Proof.
  assert (Hopen : open_workbooks (snd (extract_data file_path unit_name w))
                  = open_workbooks w).
  { destruct (extract_data_cases file_path w)
      as [[e [Hopen | (wb & Hload & Hread)]] | (wb & cells & Hload & Hact)].
    - by rewrite (extract_data_open_fails _ unit_name _ _ Hopen).
    - by rewrite (extract_data_read_fails _ unit_name _ _ _ Hload Hread).
    - by rewrite (extract_data_worksheet _ unit_name _ _ _ Hload Hact). }
  split; [apply extract_data_total|]. split; [exact Hopen|].
  split.
  - intros r w' Hrun. by rewrite Hrun in Hopen.
  - intros w' Hrun. by rewrite Hrun in Hopen.
Qed.

(* ===================================================================== *)
(** ** The output row *)
(* ===================================================================== *)

Lemma dict_get_set_ne k k' v d :
  k <> k' -> dict_get k (dict_set k' v d) = dict_get k d.
Proof.
  intros Hne. induction d as [|[k0 v0] d IH]; simpl.
  - destruct (String.eqb_spec k' k); congruence.
  - destruct (String.eqb_spec k0 k') as [->|Hk0]; simpl.
    + destruct (String.eqb_spec k' k); congruence.
    + destruct (String.eqb_spec k0 k); congruence.
Qed.

(** A loop that only assigns keys of the form [pre ++ str(i)] leaves
    every other key as it was. *)
Lemma numbered_keys_preserve (pre : string) (f : QA -> cell_value) k l :
  (forall i, k <> pre +:+ str_of_nat i) ->
  forall d,
    dict_get k (fold_left (fun row '(i, qa) => dict_set (pre +:+ str_of_nat i) (f qa) row)
                          l d)
    = dict_get k d.
Proof.
  intros Hk. induction l as [|[i qa] l IH]; intros d; simpl; [done|].
  rewrite IH. by apply dict_get_set_ne.
Qed.

Lemma build_row_metadata r k :
  (forall i, k <> "Q" +:+ str_of_nat i) ->
  (forall i, k <> "COMM Q" +:+ str_of_nat i) ->
  dict_get k (build_row r)
  = dict_get k [("Application", application r); ("Answered", responsible r);
                ("App Responsible", responsible r); ("Deputy", deputy r)].
Proof.
  intros HQ HC. unfold build_row.
  rewrite numbered_keys_preserve by done.
  by rewrite numbered_keys_preserve by done.
Qed.

(** The enumerated loop does not look at the question text. *)
Lemma numbered_loop_forgets (pre : string) (f : QA -> cell_value) (g : QA -> QA) l :
  (forall qa, f (g qa) = f qa) ->
  forall start d,
    fold_left (fun row '(i, qa) => dict_set (pre +:+ str_of_nat i) (f qa) row)
              (enumerate start (map g l)) d
    = fold_left (fun row '(i, qa) => dict_set (pre +:+ str_of_nat i) (f qa) row)
                (enumerate start l) d.
Proof.
  intros Hfg. unfold enumerate.
  induction l as [|qa l IH]; intros start d; simpl; [done|].
  rewrite Hfg. apply IH.
Qed.

Lemma build_row_forget r : build_row (forget_questions r) = build_row r.
Proof.
  unfold build_row, forget_questions. simpl.
  rewrite (numbered_loop_forgets "Q" answer) by done.
  by rewrite (numbered_loop_forgets "COMM Q" comment) by done.
Qed.

Ltac seventeen qas H :=
  do 17 (destruct qas as [|? qas]; [discriminate H|]);
  destruct qas; [|discriminate H].

Lemma keys_build_row r :
  length (questions_answers r) = N -> keys (build_row r) = expected_header.
Proof.
  destruct r as [sf app resp dep qas]. simpl. intros H.
  seventeen qas H. vm_compute. reflexivity.
Qed.

Lemma frame_row_build_row r :
  length (questions_answers r) = N ->
  frame_row expected_header (build_row r) = flat_row r.
Proof.
  destruct r as [sf app resp dep qas]. simpl. intros H.
  seventeen qas H. vm_compute. reflexivity.
Qed.

Lemma add_columns_header cols row :
  cols = [] \/ cols = expected_header ->
  keys row = expected_header ->
  add_columns cols row = expected_header.
Proof.
  intros Hcols Hkeys. unfold add_columns. rewrite Hkeys.
  destruct Hcols as [-> | ->]; vm_compute; reflexivity.
Qed.

Lemma frame_columns_header all :
  all <> [] -> well_formed all ->
  frame_columns (map build_row all) = expected_header.
Proof.
  intros Hne Hwf. destruct all as [|r all]; [done|].
  unfold frame_columns. simpl.
  apply Forall_cons in Hwf as [Hr Hall].
  rewrite (add_columns_header [] (build_row r)); [|by left|by apply keys_build_row].
  clear Hne Hr.
  induction Hall as [|r' all Hr' Hall IH]; simpl; [done|].
  rewrite (add_columns_header expected_header (build_row r'));
    [exact IH|by right|by apply keys_build_row].
Qed.

Lemma frame_values_flat all :
  well_formed all ->
  map (frame_row expected_header) (map build_row all) = map flat_row all.
Proof.
  intros Hwf.
  induction Hwf as [|r all Hr Hall IH]; cbn [map]; [done|].
  by rewrite frame_row_build_row, IH.
Qed.

Lemma expected_header_lookup i :
  1 <= i <= 17 ->
  expected_header !! (3 + i) = Some ("Q" +:+ str_of_nat i)
  /\ expected_header !! (20 + i) = Some ("COMM Q" +:+ str_of_nat i).
Proof.
  intros Hi.
  do 18 (destruct i as [|i]; [try lia; split; vm_compute; reflexivity|]).
  lia.
Qed.

Lemma flat_row_lookup r i :
  length (questions_answers r) = N ->
  1 <= i <= 17 ->
  length (flat_row r) = length expected_header
  /\ flat_row r !! (3 + i) = answer <$> (questions_answers r !! (i - 1))
  /\ flat_row r !! (20 + i) = comment <$> (questions_answers r !! (i - 1)).
Proof.
  destruct r as [sf app resp dep qas]. simpl. intros H Hi.
  seventeen qas H.
  do 18 (destruct i as [|i]; [try lia; repeat split|]).
  lia.
Qed.

(* ===================================================================== *)
(** ** Export *)
(* ===================================================================== *)

(** What a successful export of a non-empty report does to the world. *)
Lemma export_nonempty env self output_file w :
  all_data self <> [] ->
  to_excel_error env output_file = None ->
  export_to_excel env self output_file w
  = (Ok tt,
     set_stdout (fun o => o ++ ["Aggregated data exported to: " +:+ output_file])
       (set_artifacts
          (fun a => <[output_file :=
                        sheet_of_frame (make_frame (map build_row (all_data self))) false]> a)
          w)).
Proof.
  intros Hne Hw. unfold export_to_excel.
  destruct (all_data self) as [|r all] eqn:Hall; [done|].
  rewrite build_rows_map. unfold to_excel. run. by rewrite Hw.
Qed.

(** The sheet written for a well-formed, non-empty report. *)
Lemma written_table all :
  all <> [] -> well_formed all ->
  sheet_of_frame (make_frame (map build_row all)) false
  = {| header := expected_header; body := map flat_row all |}.
Proof.
  intros Hne Hwf. unfold sheet_of_frame, make_frame. cbv zeta.
  cbn [columns values].
  rewrite (frame_columns_header all Hne Hwf).
  by rewrite (frame_values_flat all Hwf).
Qed.

(** C1: exporting a non-empty report whose records have the 17 question
    rows of the layout, to a destination that can be written, stores one
    table there whose header is Application, Answered, App Responsible,
    Deputy, Q1..Q17, COMM Q1..COMM Q17 (first column Application: no
    index column) and whose body has one row per record, in the order of
    the report, each record mapped on its own (nothing sorted, nothing
    merged); in every row the cell under Qi is the answer and the cell
    under COMM Qi is the comment of question row i-1 of that record. *)
Theorem C1_export_table_shape
    (env : Env) (self : DataAggregator) (output_file : string) (w : World)
    (Hnonempty : all_data self <> [])
    (Hwf : well_formed (all_data self))
    (Hwritable : to_excel_error env output_file = None) :
  exists t w',
    export_to_excel env self output_file w = (Ok tt, w')
    /\ artifacts w' !! output_file = Some t
    /\ header t = expected_header
    /\ body t = map flat_row (all_data self)
    /\ length (body t) = length (all_data self)
    /\ header t !! 0 = Some "Application"
    /\ forall k r i,
         all_data self !! k = Some r -> 1 <= i <= 17 ->
         header t !! (3 + i) = Some ("Q" +:+ str_of_nat i)
         /\ header t !! (20 + i) = Some ("COMM Q" +:+ str_of_nat i)
         /\ exists row,
              body t !! k = Some row
              /\ length row = length (header t)
              /\ row !! (3 + i) = answer <$> (questions_answers r !! (i - 1))
              /\ row !! (20 + i) = comment <$> (questions_answers r !! (i - 1)).
Proof.
  exists {| header := expected_header; body := map flat_row (all_data self) |}.
  eexists. split.
  { rewrite export_nonempty by done. by rewrite written_table by done. }
  split; [apply lookup_insert_eq|].
  cbn [header body].
  split; [done|]. split; [done|]. split; [by rewrite length_map|].
  split; [reflexivity|].
  intros k r i Hk Hi.
  assert (Hr : length (questions_answers r) = N).
  { unfold well_formed in Hwf. rewrite Forall_lookup in Hwf. by apply (Hwf k). }
  destruct (expected_header_lookup i Hi) as [HQ HC].
  destruct (flat_row_lookup r i Hr Hi) as (Hlen & Ha & Hc).
  split; [done|]. split; [done|].
  exists (flat_row r). split; [|done].
  change (map flat_row (all_data self)) with (flat_row <$> all_data self).
  by rewrite list_lookup_fmap, Hk.
Qed.

Lemma C1_witness :
  exists t w',
    export_to_excel scenario_env
      {| all_data := [record_of_sheet "Unit-A" r1_cells; record_of_sheet "Unit-A" r1_cells] |}
      "out.xlsx" scenario_world = (Ok tt, w')
    /\ artifacts w' !! "out.xlsx" = Some t
    /\ header t = expected_header
    /\ length (body t) = 2.
Proof.
  destruct (C1_export_table_shape scenario_env
              {| all_data := [record_of_sheet "Unit-A" r1_cells;
                              record_of_sheet "Unit-A" r1_cells] |}
              "out.xlsx" scenario_world)
    as (t & w' & Hrun & Hart & Hh & _ & Hlen & _).
  - simpl. discriminate.
  - repeat constructor.
  - reflexivity.
  - exists t, w'. repeat split; assumption.
Defined.

(** C5: exporting an empty report returns normally, leaves the written
    artifacts and the disk exactly as they were, and prints the single
    line "No data to export"; a successful export of a non-empty report
    prints "Aggregated data exported to: <destination>" instead and
    leaves a table at the destination, so the two outcomes differ in what
    they report for every destination. *)
Theorem C5_empty_report_is_a_distinct_no_op
    (env : Env) (self : DataAggregator) (output_file : string) (w : World)
    (Hempty : all_data self = []) :
  export_to_excel env self output_file w
  = (Ok tt, set_stdout (fun o => o ++ ["No data to export"]) w)
  /\ artifacts (snd (export_to_excel env self output_file w)) = artifacts w
  /\ disk (snd (export_to_excel env self output_file w)) = disk w
  /\ forall (other : DataAggregator) (w2 w2' : World),
       all_data other <> [] ->
       export_to_excel env other output_file w2 = (Ok tt, w2') ->
       stdout w2' = stdout w2 ++ ["Aggregated data exported to: " +:+ output_file]
       /\ is_Some (artifacts w2' !! output_file)
       /\ "Aggregated data exported to: " +:+ output_file <> "No data to export".
Proof.
  assert (Hrun : export_to_excel env self output_file w
                 = (Ok tt, set_stdout (fun o => o ++ ["No data to export"]) w)).
  { unfold export_to_excel. by rewrite Hempty. }
  rewrite Hrun. split; [done|]. split; [done|]. split; [done|].
  intros other w2 w2' Hne Hexp.
  destruct (to_excel_error env output_file) as [e|] eqn:Hw.
  - unfold export_to_excel, to_excel in Hexp.
    destruct (all_data other); [done|]. revert Hexp. run. by rewrite Hw.
  - rewrite (export_nonempty _ _ _ _ Hne Hw) in Hexp. inversion Hexp. simpl.
    rewrite lookup_insert_eq. repeat split; [eauto | discriminate].
Qed.

Lemma C5_witness :
  export_to_excel scenario_env init "out.xlsx" scenario_world
  = (Ok tt, set_stdout (fun o => o ++ ["No data to export"]) scenario_world).
Proof.
  exact (proj1 (C5_empty_report_is_a_distinct_no_op
                  scenario_env init "out.xlsx" scenario_world eq_refl)).
Defined.

(** C10: [add_questionnaire] called with the absent result leaves the
    aggregator, and so its report, exactly as it was: nothing is
    appended, and an export afterwards is the export of the report
    before the call. *)
Theorem C10_absent_result_leaves_report_unchanged (self : DataAggregator) :
  add_questionnaire self None = self
  /\ all_data (add_questionnaire self None) = all_data self
  /\ length (all_data (add_questionnaire self None)) = length (all_data self)
  /\ forall env output_file w,
       export_to_excel env (add_questionnaire self None) output_file w
       = export_to_excel env self output_file w.
Proof. repeat split. Qed.

(* ===================================================================== *)
(** ** From the sheet to the output row *)
(* ===================================================================== *)

(** The four metadata columns of the row built for any record. *)
Lemma build_row_metadata_columns r :
  dict_get "Application" (build_row r) = Some (application r)
  /\ dict_get "Answered" (build_row r) = Some (responsible r)
  /\ dict_get "App Responsible" (build_row r) = Some (responsible r)
  /\ dict_get "Deputy" (build_row r) = Some (deputy r).
Proof.
  repeat split; rewrite build_row_metadata; try reflexivity;
    intros i; simpl; discriminate.
Qed.

(** C8: for every record [extract_data] returns, the row built for the
    export has under Application the value of cell B1 of the source
    sheet, under Deputy the value of D1, and under both Answered and App
    Responsible the value of C1, so the two are always equal. In the
    scenario of the specification (Unit-A with r1.xlsx holding B1 = App1,
    C1 = Alice, D1 = Bob, C3 = Yes, D3 = ok; Unit-B empty) the local run
    collects one record and writes one row: App1, Alice, Alice, Bob, Yes
    under Q1, sixteen absent answers, ok under COMM Q1 and sixteen absent
    comments, and prints no failure line. *)
Theorem C8_metadata_columns_and_scenario :
  (forall file_path unit_name w r w',
     extract_data file_path unit_name w = (Ok (Some r), w') ->
     exists wb cells,
       load_result (disk w) file_path = inr wb
       /\ active wb = Worksheet cells
       /\ dict_get "Application" (build_row r) = Some (cell_or_none cells "B1")
       /\ dict_get "Answered" (build_row r) = Some (cell_or_none cells "C1")
       /\ dict_get "App Responsible" (build_row r) = Some (cell_or_none cells "C1")
       /\ dict_get "Deputy" (build_row r) = Some (cell_or_none cells "D1")
       /\ dict_get "Answered" (build_row r) = dict_get "App Responsible" (build_row r))
  /\ (let run := main_local scenario_env "/root" "out.xlsx" scenario_world in
      fst run = Ok {| all_data := [record_of_sheet "Unit-A" r1_cells] |}
      /\ artifacts (snd run) !! "out.xlsx"
         = Some {| header := expected_header;
                   body := [[VStr "App1"; VStr "Alice"; VStr "Alice"; VStr "Bob"]
                              ++ [VStr "Yes"] ++ repeat VNone 16
                              ++ [VStr "ok"] ++ repeat VNone 16] |}
      /\ stdout (snd run)
         = ["Mode: Local Filesystem"; "Scanning folders in: /root";
            "Found 2 folders";
            nl +:+ "Processing folder: Unit-A"; "  Found 1 Excel file(s)";
            "    Processing: r1.xlsx"; "      Extracted data from r1.xlsx";
            nl +:+ "Processing folder: Unit-B"; "  Found 0 Excel file(s)";
            nl +:+ repeat_str "=" 50;
            "Aggregated data exported to: out.xlsx";
            nl +:+ "Processing complete! Total questionnaires processed: 1"]).
Proof.
  split.
  - intros file_path unit_name w r w' Hok.
    destruct (extract_data_some_inv _ _ _ _ _ Hok) as (wb & cells & Hload & Hact & -> & _).
    exists wb, cells.
    destruct (build_row_metadata_columns (record_of_sheet unit_name cells))
      as (Ha & Hb & Hc & Hd).
    repeat split; try done.
  - repeat split; vm_compute; reflexivity.
Qed.

Lemma C8_witness :
  dict_get "Answered" (build_row (record_of_sheet "Unit-A" r1_cells))
  = dict_get "App Responsible" (build_row (record_of_sheet "Unit-A" r1_cells)).
Proof.
  destruct (proj1 C8_metadata_columns_and_scenario
              "/root/Unit-A/r1.xlsx" "Unit-A" scenario_world
              (record_of_sheet "Unit-A" r1_cells)
              scenario_world
              eq_refl)
    as (wb & cells & _ & _ & _ & _ & _ & _ & Heq).
  exact Heq.
Defined.

(** C9 as stated fails: the record returned for good.xlsx, whose cell B3
    holds the question text "Is it safe?", carries that text in its
    first question row. *)
Lemma C9_counterexample_question_text_retained :
  exists r w',
    extract_data "/data/Unit-X/good.xlsx" "Unit-X" mixed_world = (Ok (Some r), w')
    /\ question <$> (questions_answers r !! 0) = Some (VStr "Is it safe?")
    /\ question <$> (questions_answers r !! 16) = Some (VStr "Last one").
Proof. eexists _, _. repeat split. Qed.

(** C9, as the code has it: the record [extract_data] returns keeps the
    question text, question row i holding the value of cell B(3+i) next
    to the answer and the comment, together with the unit name and the
    three metadata fields. The text is dropped at export: the row built
    for a record, and the whole effect of an export, are the same when
    every question text is blanked out first. *)
Theorem C9_question_text_kept_in_record_dropped_at_export :
  (forall file_path unit_name w r w',
     extract_data file_path unit_name w = (Ok (Some r), w') ->
     exists wb cells,
       load_result (disk w) file_path = inr wb
       /\ active wb = Worksheet cells
       /\ source_folder r = unit_name
       /\ application r = cell_or_none cells "B1"
       /\ responsible r = cell_or_none cells "C1"
       /\ deputy r = cell_or_none cells "D1"
       /\ map question (questions_answers r)
          = map (fun row => cell_or_none cells ("B" +:+ str_of_nat row)) (seq 3 17)
       /\ map answer (questions_answers r)
          = map (fun row => cell_or_none cells ("C" +:+ str_of_nat row)) (seq 3 17)
       /\ map comment (questions_answers r)
          = map (fun row => cell_or_none cells ("D" +:+ str_of_nat row)) (seq 3 17))
  /\ (forall r, build_row (forget_questions r) = build_row r)
  /\ (forall env all output_file w,
        export_to_excel env {| all_data := map forget_questions all |} output_file w
        = export_to_excel env {| all_data := all |} output_file w).
Proof.
  split; [|split].
  - intros file_path unit_name w r w' Hok.
    destruct (extract_data_some_inv _ _ _ _ _ Hok) as (wb & cells & Hload & Hact & -> & _).
    exists wb, cells. repeat split; done.
  - apply build_row_forget.
  - intros env all output_file w. unfold export_to_excel.
    cbn [all_data].
    destruct all as [|r all]; [done|].
    cbn [map]. rewrite !build_rows_map.
    replace (map build_row (forget_questions r :: map forget_questions all))
      with (map build_row (r :: all)); [done|].
    cbn [map]. rewrite build_row_forget. f_equal.
    rewrite map_map. apply map_ext. intros a. by rewrite build_row_forget.
Qed.

Lemma C9_witness :
  map question (questions_answers (record_of_sheet "Unit-X" q_cells))
  = map (fun row => cell_or_none q_cells ("B" +:+ str_of_nat row)) (seq 3 17).
Proof.
  destruct (proj1 C9_question_text_kept_in_record_dropped_at_export
              "/data/Unit-X/good.xlsx" "Unit-X" mixed_world
              (record_of_sheet "Unit-X" q_cells)
              mixed_world
              eq_refl)
    as (wb & cells & Hload & Hact & _).
  reflexivity.
Defined.

(* ===================================================================== *)
(** ** Every report a run builds is well formed *)
(* ===================================================================== *)

Lemma for_each_invariant {A S} (P : S -> Prop) (body : S -> A -> M S) (l : list A) :
  (forall s x w s' w', P s -> body s x w = (Ok s', w') -> P s') ->
  forall s w s' w', P s -> for_each l body s w = (Ok s', w') -> P s'.
Proof.
  intros Hbody. induction l as [|x l IH]; intros s w s' w' Hs Hrun.
  - inversion Hrun. by subst.
  - simpl in Hrun. unfold bind in Hrun.
    destruct (body s x w) as [[s1|e] w1] eqn:Hx; [|done].
    eapply IH; [|exact Hrun]. eapply Hbody; eauto.
Qed.

Lemma record_of_sheet_rows unit_name cells :
  length (questions_answers (record_of_sheet unit_name cells)) = N.
Proof. reflexivity. Qed.

(** What the two loop bodies do with the outcome of an extraction. *)
Lemma after_extraction (file_name : string) agg data w agg' w' :
  match data with
  | Some _ =>
      print ("      Extracted data from " +:+ file_name) ;;;
      ret (add_questionnaire agg data)
  | None =>
      print ("      Failed to extract data from " +:+ file_name) ;;;
      ret agg
  end w = (Ok agg', w') ->
  agg' = add_questionnaire agg data.
Proof.
  destruct data as [d|]; run; intros H; by inversion H.
Qed.

Lemma extraction_keeps_well_formed file_path unit_name agg w data w' :
  well_formed (all_data agg) ->
  extract_data file_path unit_name w = (Ok data, w') ->
  well_formed (all_data (add_questionnaire agg data)).
Proof.
  intros Hwf Hrun. destruct data as [r|]; [|done].
  destruct (extract_data_some_inv _ _ _ _ _ Hrun) as (_ & cells & _ & _ & -> & _).
  simpl. unfold well_formed. apply Forall_app. split; [done|].
  constructor; [apply record_of_sheet_rows | constructor].
Qed.

Lemma local_file_well_formed unit_name agg file w agg' w' :
  well_formed (all_data agg) ->
  local_file unit_name agg file w = (Ok agg', w') ->
  well_formed (all_data agg').
Proof.
  intros Hwf. unfold local_file.
  unfold bind at 1. unfold print at 1. unfold bind at 1.
  destruct (extract_data _ _ _) as [[data|e] w1] eqn:Hx; [|done].
  intros Hrest. apply after_extraction in Hrest. subst agg'.
  eapply extraction_keeps_well_formed; eauto.
Qed.

Lemma remote_file_well_formed env temp_dir unit_name agg file w agg' w' :
  well_formed (all_data agg) ->
  remote_file env temp_dir unit_name agg file w = (Ok agg', w') ->
  well_formed (all_data agg').
Proof.
  intros Hwf. unfold remote_file.
  unfold bind at 1. unfold print at 1. unfold bind at 1.
  destruct (Remote.download_file _ _ _ _) as [[[|]|e] w1] eqn:Hd; [| |done].
  - unfold bind at 1.
    destruct (extract_data _ _ _) as [[data|e] w2] eqn:Hx; [|done].
    intros Hrest. apply after_extraction in Hrest. subst agg'.
    eapply extraction_keeps_well_formed; eauto.
  - run. intros H. inversion H. by subst.
Qed.

Lemma finish_returns_aggregator env agg output_file w agg' w' :
  finish env agg output_file w = (Ok agg', w') -> agg' = agg.
Proof.
  unfold finish. unfold bind at 1. unfold print at 1. unfold bind at 1.
  destruct (export_to_excel _ _ _ _) as [[[]|e] w1]; [|done].
  run. intros H. by inversion H.
Qed.

(** The report of a completed local run is well formed. *)
Lemma main_local_well_formed env base_path output_file w agg w' :
  main_local env base_path output_file w = (Ok agg, w') ->
  well_formed (all_data agg).
Proof.
  unfold main_local.
  do 2 (unfold bind at 1; unfold print at 1).
  unfold bind at 1.
  destruct (Local.get_folders _ _ _) as [[folders|e] w1]; [|done].
  unfold bind at 1. unfold print at 1. unfold bind at 1.
  destruct (for_each folders _ _ _) as [[agg1|e] w2] eqn:Hloop; [|done].
  intros Hfin. apply finish_returns_aggregator in Hfin. subst agg.
  refine (for_each_invariant (fun a => well_formed (all_data a))
            _ _ _ _ _ _ _ _ Hloop); [|constructor].
  intros s folder wa s' wb Hs. unfold local_folder.
  unfold bind at 1. unfold print at 1. unfold bind at 1.
  destruct (Local.get_excel_files_in_folder _ _ _) as [[files|e] w3]; [|done].
  unfold bind at 1. unfold print at 1.
  apply (for_each_invariant (fun a => well_formed (all_data a))); [|done].
  intros s0 file wc s1 wd. apply local_file_well_formed.
Qed.

(** The report of a completed remote run is well formed. *)
Lemma main_sharepoint_well_formed env temp_dir folder_path output_file w agg w' :
  main_sharepoint env temp_dir folder_path output_file w = (Ok agg, w') ->
  well_formed (all_data agg).
Proof.
  unfold main_sharepoint.
  unfold bind at 1; unfold print at 1.
  unfold bind at 1.
  destruct (Remote.get_folders_in_path _ _ _) as [[folders|e] w1]; [|done].
  unfold bind at 1. unfold print at 1. unfold bind at 1.
  destruct (for_each folders _ _ _) as [[agg1|e] w2] eqn:Hloop; [|done].
  intros Hfin. apply finish_returns_aggregator in Hfin. subst agg.
  refine (for_each_invariant (fun a => well_formed (all_data a))
            _ _ _ _ _ _ _ _ Hloop); [|constructor].
  intros s folder wa s' wb Hs. unfold remote_folder.
  unfold bind at 1. unfold print at 1. unfold bind at 1.
  destruct (Remote.get_excel_files_in_folder _ _ _) as [[files|e] w3]; [|done].
  unfold bind at 1. unfold print at 1.
  apply (for_each_invariant (fun a => well_formed (all_data a))); [|done].
  intros s0 file wc s1 wd. apply remote_file_well_formed.
Qed.

(* ===================================================================== *)
(** ** Names and extensions *)
(* ===================================================================== *)

Lemma lower_ascii_idem c : lower_ascii (lower_ascii c) = lower_ascii c.
Proof.
  destruct c as [[] [] [] [] [] [] [] []]; vm_compute; reflexivity.
Qed.

Lemma lower_idem s : lower (lower s) = lower s.
Proof.
  induction s as [|c s IH]; simpl; [done|]. by rewrite lower_ascii_idem, IH.
Qed.

Lemma lower_ascii_dot c : lower_ascii c = "."%char -> c = "."%char.
Proof.
  destruct c as [[] [] [] [] [] [] [] []]; vm_compute; intros H;
    first [reflexivity | discriminate H].
Qed.

Lemma lower_ascii_not_dot c d :
  lower_ascii c = d -> d <> "."%char -> Ascii.eqb c "."%char = false.
Proof.
  intros H Hd. apply Ascii.eqb_neq. intros ->. apply Hd. rewrite <- H. reflexivity.
Qed.

Lemma string_app_length (a b : string) :
  String.length (a +:+ b) = String.length a + String.length b.
Proof. induction a as [|c a IH]; simpl; [done|]. by rewrite IH. Qed.

Lemma substring_all (s : string) : substring 0 (String.length s) s = s.
Proof. induction s as [|c s IH]; simpl; [done|]. by rewrite IH. Qed.

Lemma substring_app_tail (a b : string) :
  substring (String.length a) (String.length b) (a +:+ b) = b.
Proof. induction a as [|c a IH]; simpl; [apply substring_all | exact IH]. Qed.

Lemma substring_split (s : string) (n : nat) :
  n <= String.length s ->
  s = substring 0 n s +:+ substring n (String.length s - n) s.
Proof.
  revert n. induction s as [|c s IH]; intros n Hn; simpl in *.
  - destruct n; [done | lia].
  - destruct n as [|n]; simpl.
    + by rewrite substring_all.
    + change (String c s = String c (substring 0 n s
                +:+ substring n (String.length s - n) s)).
      f_equal. apply IH. lia.
Qed.

Lemma substring_length_prefix (s : string) (n : nat) :
  n <= String.length s -> String.length (substring 0 n s) = n.
Proof.
  revert n. induction s as [|c s IH]; intros n Hn; simpl in *.
  - destruct n; [done | lia].
  - destruct n as [|n]; simpl; [done|]. rewrite IH; [done | lia].
Qed.

(** [rfind] answers [-1] or an index inside the string. *)
Lemma rfind_range c s : (-1 <= rfind c s < Z.of_nat (String.length s))%Z.
Proof.
  induction s as [|d s IH]; simpl; [lia|].
  destruct (0 <=? rfind c s)%Z eqn:Hi; [lia|].
  destruct (Ascii.eqb d c); lia.
Qed.

(** The last occurrence in [stem ++ c ++ rest] when [rest] has no [c]. *)
Lemma rfind_app_last c stem rest :
  rfind c rest = (-1)%Z ->
  rfind c (stem +:+ String c rest) = Z.of_nat (String.length stem).
Proof.
  intros Hrest. induction stem as [|d stem IH].
  - simpl. rewrite Hrest. simpl. by rewrite Ascii.eqb_refl.
  - change (String d stem +:+ String c rest)
      with (String d (stem +:+ String c rest)).
    cbn [rfind String.length]. rewrite IH.
    destruct (0 <=? Z.of_nat (String.length stem))%Z eqn:H; lia.
Qed.

(** [endswith] holds exactly for the strings that end in the pattern. *)
Lemma endswith_app (a b : string) : endswith (a +:+ b) b = true.
Proof.
  unfold endswith. rewrite string_app_length.
  destruct (String.length b <=? String.length a + String.length b)%nat eqn:H;
    [|apply Nat.leb_gt in H; lia].
  replace (String.length a + String.length b - String.length b)
    with (String.length a) by lia.
  rewrite substring_app_tail. apply String.eqb_refl.
Qed.

Lemma endswith_split (s p : string) :
  endswith s p = true -> exists stem, s = stem +:+ p.
Proof.
  unfold endswith.
  destruct (String.length p <=? String.length s)%nat eqn:H; [|done].
  apply Nat.leb_le in H. intros Heq. apply String.eqb_eq in Heq.
  exists (substring 0 (String.length s - String.length p) s).
  etransitivity;
    [apply (substring_split s (String.length s - String.length p)); lia|].
  f_equal.
  replace (String.length s - (String.length s - String.length p))
    with (String.length p) by lia.
  exact Heq.
Qed.

(** The suffix of a name with a non-empty stem and a one-dot extension. *)
Lemma suffix_of_stem_ext (stem rest : string) :
  stem <> "" -> rest <> "" -> rfind "."%char rest = (-1)%Z ->
  suffix (stem +:+ String "."%char rest) = String "."%char rest.
Proof.
  intros Hstem Hnonempty Hrest. unfold suffix.
  rewrite rfind_app_last by done.
  rewrite string_app_length. simpl String.length.
  assert (0 < String.length stem) by (destruct stem; [done | simpl; lia]).
  assert (0 < String.length rest) by (destruct rest; [done | simpl; lia]).
  destruct (0 <? Z.of_nat (String.length stem))%Z eqn:H1; [|lia].
  destruct (Z.of_nat (String.length stem)
            <? Z.of_nat (String.length stem + S (String.length rest)) - 1)%Z eqn:H2;
    [|exfalso; apply Z.ltb_ge in H2; lia].
  simpl. unfold slice_from. rewrite Nat2Z.id, string_app_length.
  replace (String.length stem + String.length (String "."%char rest)
           - String.length stem)
    with (String.length (String "."%char rest)) by lia.
  apply substring_app_tail.
Qed.

(** An extension that lower-cases to ".xlsx" or ".xls" is a full stop
    followed by letters. *)
Lemma excel_ext_shape (ext : string) :
  lower ext = ".xlsx" \/ lower ext = ".xls" ->
  exists rest, ext = String "."%char rest /\ rest <> ""
               /\ rfind "."%char rest = (-1)%Z.
Proof.
  intros [H | H].
  - destruct ext as [|c0 [|c1 [|c2 [|c3 [|c4 [|c5 ext]]]]]]; simpl in H;
      try discriminate H.
    injection H as H0 H1 H2 H3 H4.
    apply lower_ascii_dot in H0. subst c0.
    eexists. split; [reflexivity|]. split; [done|].
    simpl.
    rewrite (lower_ascii_not_dot c4 _ H4) by done.
    rewrite (lower_ascii_not_dot c3 _ H3) by done.
    rewrite (lower_ascii_not_dot c2 _ H2) by done.
    by rewrite (lower_ascii_not_dot c1 _ H1) by done.
  - destruct ext as [|c0 [|c1 [|c2 [|c3 [|c4 ext]]]]]; simpl in H;
      try discriminate H.
    injection H as H0 H1 H2 H3.
    apply lower_ascii_dot in H0. subst c0.
    eexists. split; [reflexivity|]. split; [done|].
    simpl.
    rewrite (lower_ascii_not_dot c3 _ H3) by done.
    rewrite (lower_ascii_not_dot c2 _ H2) by done.
    by rewrite (lower_ascii_not_dot c1 _ H1) by done.
Qed.

Lemma str_in_excel (s : string) :
  str_in s [".xlsx"; ".xls"] = true <-> s = ".xlsx" \/ s = ".xls".
Proof.
  unfold str_in. simpl. rewrite !orb_true_iff, !String.eqb_eq.
  split; [intros [H | [H | H]]; [by left | by right | done] | intros [H | H]; auto].
Qed.

(** A non-empty stem followed by an Excel extension passes the local
    test, temporary-file marker apart. *)
Lemma accepts_name_stem_ext (stem ext : string) :
  stem <> "" ->
  lower ext = ".xlsx" \/ lower ext = ".xls" ->
  startswith (stem +:+ ext) "~$" = false ->
  accepts_name (stem +:+ ext) = true.
Proof.
  intros Hstem Hext Htmp. unfold accepts_name.
  rewrite andb_true_iff, negb_true_iff, str_in_excel. split; [|done].
  destruct (excel_ext_shape ext Hext) as (rest & -> & Hrest & Hnodot).
  by rewrite suffix_of_stem_ext.
Qed.

(** X1: the local listing accepts a name exactly when it splits into a
    non-empty stem and an extension that reads .xlsx or .xls once
    lower-cased, and does not begin with the temporary-file marker. *)
Theorem X1_local_name_filter_characterised (name : string) :
  accepts_name name = true
  <-> (exists stem ext,
         name = stem +:+ ext /\ stem <> ""
         /\ (lower ext = ".xlsx" \/ lower ext = ".xls"))
      /\ startswith name "~$" = false.
Proof.
  unfold accepts_name. rewrite andb_true_iff, negb_true_iff, str_in_excel.
  split.
  - intros [Hext Htmp]. split; [|done].
    assert (Hne : suffix name <> "").
    { intros Heq. rewrite Heq in Hext. destruct Hext; discriminate. }
    unfold suffix in *.
    pose proof (rfind_range "."%char name) as Hrange.
    destruct ((0 <? rfind "."%char name)
              && (rfind "."%char name <? Z.of_nat (String.length name) - 1))%Z
      eqn:Hcond; [|done].
    apply andb_true_iff in Hcond as [Hlo Hhi].
    apply Z.ltb_lt in Hlo. apply Z.ltb_lt in Hhi.
    exists (substring 0 (Z.to_nat (rfind "."%char name)) name),
           (slice_from (rfind "."%char name) name).
    split; [|split; [|done]].
    + unfold slice_from. apply substring_split. lia.
    + intros Hempty.
      pose proof (substring_length_prefix name (Z.to_nat (rfind "."%char name))) as Hlen.
      rewrite Hempty in Hlen. simpl in Hlen. lia.
  - intros [(stem & ext & -> & Hstem & Hext) Htmp].
    pose proof (accepts_name_stem_ext stem ext Hstem Hext Htmp) as Hacc.
    unfold accepts_name in Hacc.
    by rewrite andb_true_iff, negb_true_iff, str_in_excel in Hacc.
Qed.

(** X2: the two variants agree on lower-case extensions. A name the
    remote listing accepts is accepted by the local test too unless it
    is the bare name .xlsx or .xls; a name the local test accepts is
    accepted by the remote listing when its extension is already written
    in lower case. *)
Theorem X2_remote_and_local_filters_compared (file : SPItem) :
  let name := prop_get file "Name" in
  (Remote.is_excel_file file = true ->
   name <> ".xlsx" -> name <> ".xls" -> accepts_name name = true)
  /\ (accepts_name name = true ->
      lower (suffix name) = suffix name ->
      Remote.is_excel_file file = true).
Proof.
  intros name. unfold Remote.is_excel_file. fold name. split.
  - rewrite andb_true_iff, negb_true_iff. intros [Hend Htmp] Hx Hs.
    unfold endswith_any in Hend. simpl in Hend.
    rewrite orb_false_r in Hend. apply orb_true_iff in Hend as [Hend | Hend];
      apply endswith_split in Hend as [stem Hname]; rewrite Hname in *.
    + apply accepts_name_stem_ext; [|by left|done].
      intros ->. by apply Hx.
    + apply accepts_name_stem_ext; [|by right|done].
      intros ->. by apply Hs.
  - intros Hacc Hlow.
    unfold accepts_name in Hacc.
    apply andb_true_iff in Hacc as [Hext Htmp]. rewrite Htmp, andb_true_r.
    rewrite Hlow in Hext.
    assert (Hend : endswith name (suffix name) = true).
    { apply str_in_excel in Hext.
      assert (Hne : suffix name <> "") by (destruct Hext as [-> | ->]; done).
      unfold suffix in *.
      pose proof (rfind_range "."%char name) as Hrange.
      destruct ((0 <? rfind "."%char name)
                && (rfind "."%char name <? Z.of_nat (String.length name) - 1))%Z
        eqn:Hcond; [|done].
      apply andb_true_iff in Hcond as [Hlo Hhi].
      apply Z.ltb_lt in Hlo. apply Z.ltb_lt in Hhi.
      rewrite (substring_split name (Z.to_nat (rfind "."%char name))) at 1 by lia.
      unfold slice_from. apply endswith_app. }
    apply str_in_excel in Hext. unfold endswith_any. simpl.
    destruct Hext as [He | He]; rewrite He in Hend; rewrite Hend; simpl;
      [done | by rewrite orb_true_r].
Qed.

Lemma X2_witness :
  accepts_name (prop_get (sp_item "/u/report.xlsx" "report.xlsx") "Name") = true.
Proof.
  apply (proj1 (X2_remote_and_local_filters_compared
                  (sp_item "/u/report.xlsx" "report.xlsx")));
    [reflexivity | discriminate | discriminate].
Defined.

(* ===================================================================== *)
(** ** What extraction reads *)
(* ===================================================================== *)

Lemma layout_row_coords row :
  In row (seq 3 17) ->
  In ("B" +:+ str_of_nat row) layout_coords
  /\ In ("C" +:+ str_of_nat row) layout_coords
  /\ In ("D" +:+ str_of_nat row) layout_coords.
Proof.
  intros Hrow. unfold layout_coords.
  repeat split; apply in_or_app; right; apply in_flat_map;
    exists row; (split; [done|]); simpl; auto.
Qed.

(** X3: the record depends on the 54 cells of the fixed layout only
    (B1, C1, D1 and columns B to D of rows 3 to 19). Two workbooks whose
    worksheets agree on these cells give the same record for the same
    unit name, whatever else the sheets hold (column A, row 2, rows from
    20 on) and wherever the files lie. *)
Theorem X3_only_layout_cells_are_read
    (path1 path2 unit_name : string) (w1 w2 : World)
    (wb1 wb2 : Workbook) (cells1 cells2 : gmap string cell_value)
    (Hload1 : load_result (disk w1) path1 = inr wb1)
    (Hsheet1 : active wb1 = Worksheet cells1)
    (Hload2 : load_result (disk w2) path2 = inr wb2)
    (Hsheet2 : active wb2 = Worksheet cells2)
    (Hagree : forall coord, In coord layout_coords ->
                            cells1 !! coord = cells2 !! coord) :
  fst (extract_data path1 unit_name w1) = fst (extract_data path2 unit_name w2).
Proof.
  rewrite (extract_data_worksheet _ unit_name _ _ _ Hload1 Hsheet1).
  rewrite (extract_data_worksheet _ unit_name _ _ _ Hload2 Hsheet2).
  simpl. do 2 f_equal. unfold record_of_sheet, cell_or_none.
  rewrite !(Hagree "B1"), !(Hagree "C1"), !(Hagree "D1")
    by (unfold layout_coords; simpl; auto).
  f_equal. apply map_ext_in. intros row Hrow.
  destruct (layout_row_coords row Hrow) as (HB & HC & HD).
  unfold row_of_sheet, cell_or_none.
  by rewrite (Hagree _ HB), (Hagree _ HC), (Hagree _ HD).
Qed.

Lemma X3_witness :
  fst (extract_data "/root/Unit-A/r1.xlsx" "Unit-A" scenario_world)
  = fst (extract_data "/elsewhere/copy.xlsx" "Unit-A"
           (fresh {[ "/elsewhere/copy.xlsx" :=
                       Book {| active := Worksheet
                                 (<["A1" := VStr "draft"]>
                                    (<["C20" := VStr "extra"]> r1_cells)) |} ]})).
Proof.
  apply (X3_only_layout_cells_are_read
           "/root/Unit-A/r1.xlsx" "/elsewhere/copy.xlsx" "Unit-A"
           scenario_world _
           {| active := Worksheet r1_cells |}
           {| active := Worksheet (<["A1" := VStr "draft"]>
                                     (<["C20" := VStr "extra"]> r1_cells)) |}
           r1_cells
           (<["A1" := VStr "draft"]> (<["C20" := VStr "extra"]> r1_cells)));
    try reflexivity.
  intros coord Hin.
  rewrite !lookup_insert_ne; [reflexivity | |];
    intros <-; vm_compute in Hin; intuition discriminate.
Defined.

(* ===================================================================== *)
(** ** The report of a run *)
(* ===================================================================== *)

Lemma bind_print (s : string) {B} (k : unit -> M B) w :
  bind (print s) k w = k tt (set_stdout (fun out => out ++ [s]) w).
Proof. reflexivity. Qed.

Lemma bind_ok {A B} (m : M A) (k : A -> M B) w a w1 :
  m w = (Ok a, w1) -> bind m k w = k a w1.
Proof. intros H. unfold bind. by rewrite H. Qed.

Lemma same_files_refl w : same_files w w.
Proof. by split. Qed.

Lemma same_files_trans w1 w2 w3 :
  same_files w1 w2 -> same_files w2 w3 -> same_files w1 w3.
Proof. intros [? ?] [? ?]. split; congruence. Qed.

Lemma same_files_stdout f w : same_files w (set_stdout f w).
Proof. by split. Qed.

Lemma aggregator_eta (agg : DataAggregator) : {| all_data := all_data agg |} = agg.
Proof. by destruct agg. Qed.

(** Extraction yields what the file on the disk holds, and leaves the
    disk and the artifacts alone. *)
Lemma extract_data_extracted file_path unit_name w :
  exists w',
    extract_data file_path unit_name w
    = (Ok (extracted (disk w) unit_name file_path), w')
    /\ same_files w w'.
Proof.
  unfold extracted.
  destruct (load_result (disk w) file_path) as [e|wb] eqn:Hload.
  - rewrite (extract_data_open_fails _ _ _ _ Hload). eexists. by split.
  - destruct (active wb) as [| |cells] eqn:Hact.
    + rewrite (extract_data_read_fails _ _ _ wb
                 "'NoneType' object is not subscriptable" Hload)
        by (by rewrite Hact).
      eexists. by split.
    + rewrite (extract_data_read_fails _ _ _ wb
                 "'Chartsheet' object is not subscriptable" Hload)
        by (by rewrite Hact).
      eexists. by split.
    + rewrite (extract_data_worksheet _ _ _ _ _ Hload Hact). eexists. by split.
Qed.

Lemma local_file_extracted unit_name agg file w :
  exists w',
    local_file unit_name agg file w
    = (Ok (add_questionnaire agg (extracted (disk w) unit_name (e_path file))), w')
    /\ same_files w w'.
Proof.
  unfold local_file. rewrite bind_print.
  set (w1 := set_stdout _ w).
  destruct (extract_data_extracted (e_path file) unit_name w1) as (w2 & Hrun & Hsame).
  rewrite (bind_ok _ _ _ _ _ Hrun). change (disk w1) with (disk w).
  destruct (extracted (disk w) unit_name (e_path file)) as [d|];
    rewrite bind_print; eexists; (split; [reflexivity|]);
    (eapply same_files_trans; [apply same_files_stdout|]);
    (eapply same_files_trans; [exact Hsame|]); apply same_files_stdout.
Qed.

Lemma add_questionnaire_data agg data :
  all_data (add_questionnaire agg data) = all_data agg ++ option_list data.
Proof. destruct data; simpl; [done | by rewrite app_nil_r]. Qed.

Lemma omap_cons_option {A B} (f : A -> option B) x l :
  omap f (x :: l) = option_list (f x) ++ omap f l.
Proof. simpl. by destruct (f x). Qed.

Lemma local_files_loop unit_name files agg w :
  exists agg' w',
    for_each files (local_file unit_name) agg w = (Ok agg', w')
    /\ all_data agg'
       = all_data agg
           ++ omap (fun file => extracted (disk w) unit_name (e_path file)) files
    /\ same_files w w'.
Proof.
  revert agg w. induction files as [|file files IH]; intros agg w.
  - exists agg, w. simpl. rewrite app_nil_r. by repeat split.
  - destruct (local_file_extracted unit_name agg file w) as (w1 & Hrun & Hsame1).
    destruct (IH (add_questionnaire agg (extracted (disk w) unit_name (e_path file))) w1)
      as (agg' & w' & Hloop & Hdata & Hsame2).
    exists agg', w'. split; [|split].
    + cbn [for_each]. by rewrite (bind_ok _ _ _ _ _ Hrun).
    + rewrite Hdata, add_questionnaire_data, omap_cons_option, <- app_assoc.
      destruct Hsame1 as [-> _]. done.
    + by eapply same_files_trans.
Qed.

Lemma local_listing_listed env folder w :
  exists w',
    Local.get_excel_files_in_folder env (e_path folder) w
    = (Ok (listed_files env folder), w')
    /\ same_files w w'.
Proof.
  unfold listed_files.
  destruct (iterdir env (e_path folder)) as [e|entries] eqn:Hdir.
  - unfold Local.get_excel_files_in_folder. run. rewrite Hdir. simpl.
    eexists. by split.
  - unfold Local.get_excel_files_in_folder. run. rewrite Hdir. simpl.
    rewrite append_loop_filter. simpl. eexists. by split.
Qed.

Lemma local_folder_extracted env agg folder w :
  exists agg' w',
    local_folder env agg folder w = (Ok agg', w')
    /\ all_data agg'
       = all_data agg
           ++ omap (fun file => extracted (disk w) (e_name folder) (e_path file))
                   (listed_files env folder)
    /\ same_files w w'.
Proof.
  unfold local_folder. rewrite bind_print.
  set (w1 := set_stdout _ w).
  destruct (local_listing_listed env folder w1) as (w2 & Hlist & Hsame2).
  rewrite (bind_ok _ _ _ _ _ Hlist). rewrite bind_print.
  set (w3 := set_stdout _ w2).
  destruct (local_files_loop (e_name folder) (listed_files env folder) agg w3)
    as (agg' & w' & Hloop & Hdata & Hsame3).
  exists agg', w'. split; [exact Hloop|]. split.
  - rewrite Hdata. destruct Hsame2 as [Hd _]. change (disk w3) with (disk w2).
    by rewrite Hd.
  - assert (H01 : same_files w w1) by (split; reflexivity).
    assert (H23 : same_files w2 w3) by (split; reflexivity).
    eauto using same_files_trans.
Qed.

Lemma local_folders_loop env folders agg w :
  exists agg' w',
    for_each folders (local_folder env) agg w = (Ok agg', w')
    /\ all_data agg'
       = all_data agg
           ++ flat_map
                (fun folder =>
                   omap (fun file => extracted (disk w) (e_name folder) (e_path file))
                        (listed_files env folder))
                folders
    /\ same_files w w'.
Proof.
  revert agg w. induction folders as [|folder folders IH]; intros agg w.
  - exists agg, w. simpl. rewrite app_nil_r. by repeat split.
  - destruct (local_folder_extracted env agg folder w)
      as (agg1 & w1 & Hrun & Hdata1 & Hsame1).
    destruct (IH agg1 w1) as (agg' & w' & Hloop & Hdata & Hsame2).
    exists agg', w'. split; [|split].
    + cbn [for_each]. by rewrite (bind_ok _ _ _ _ _ Hrun).
    + rewrite Hdata, Hdata1. cbn [flat_map]. rewrite <- app_assoc.
      destruct Hsame1 as [-> _]. done.
    + by eapply same_files_trans.
Qed.

Lemma local_units_listed env base_path w :
  exists w',
    Local.get_folders env base_path w = (Ok (listed_units env base_path), w')
    /\ same_files w w'.
Proof.
  unfold listed_units, Local.get_folders. run.
  destruct (iterdir env base_path) as [e|entries]; simpl; eexists; by split.
Qed.

(** A local run is its traversal followed by [finish] on the report in
    discovery order. *)
Lemma main_local_traversal env base_path output_file w :
  exists w1,
    main_local env base_path output_file w
    = finish env {| all_data := local_report env (disk w) base_path |} output_file w1
    /\ same_files w w1.
Proof.
  unfold main_local. rewrite !bind_print.
  set (w0 := set_stdout _ (set_stdout _ w)).
  destruct (local_units_listed env base_path w0) as (w1 & Hunits & Hsame1).
  rewrite (bind_ok _ _ _ _ _ Hunits). rewrite bind_print.
  set (w2 := set_stdout _ w1).
  destruct (local_folders_loop env (listed_units env base_path) init w2)
    as (agg & w3 & Hloop & Hdata & Hsame3).
  rewrite (bind_ok _ _ _ _ _ Hloop).
  exists w3. split.
  - f_equal. rewrite <- (aggregator_eta agg). f_equal.
    rewrite Hdata. simpl. unfold local_report.
    destruct Hsame1 as [Hd _]. change (disk w2) with (disk w1). by rewrite Hd.
  - assert (H00 : same_files w w0) by (split; reflexivity).
    assert (H12 : same_files w1 w2) by (split; reflexivity).
    eauto using same_files_trans.
Qed.

(** The three ways [finish] can go. *)
Lemma finish_empty env agg output_file w :
  all_data agg = [] ->
  exists w',
    finish env agg output_file w = (Ok agg, w')
    /\ same_files w w'
    /\ stdout w' = stdout w ++
         [nl +:+ repeat_str "=" 50; "No data to export";
          nl +:+ "Processing complete! Total questionnaires processed: 0"].
Proof.
  intros Hempty. unfold finish, export_to_excel. rewrite Hempty.
  rewrite !bind_print. unfold ret. eexists. split; [reflexivity|].
  split; [by split|]. simpl. by rewrite <- !app_assoc.
Qed.

Lemma finish_written env agg output_file w :
  all_data agg <> [] ->
  to_excel_error env output_file = None ->
  exists w',
    finish env agg output_file w = (Ok agg, w')
    /\ disk w' = disk w
    /\ artifacts w'
       = <[output_file := sheet_of_frame (make_frame (map build_row (all_data agg))) false]>
           (artifacts w).
Proof.
  intros Hne Hw. unfold finish. rewrite bind_print.
  rewrite (bind_ok _ _ _ _ _ (export_nonempty env agg output_file _ Hne Hw)).
  rewrite bind_print. unfold ret. eexists. by repeat split.
Qed.

Lemma finish_export_error env agg output_file w e :
  all_data agg <> [] ->
  to_excel_error env output_file = Some e ->
  finish env agg output_file w
  = (Raise e, set_stdout (fun out => out ++ [nl +:+ repeat_str "=" 50]) w).
Proof.
  intros Hne Hw. unfold finish. rewrite bind_print.
  unfold bind, export_to_excel, to_excel.
  destruct (all_data agg); [done|]. run. by rewrite Hw.
Qed.



(** X5: the one failure a local run does not recover from is the final
    write. When the report is non-empty and [to_excel] raises, the
    exception leaves [main_local]: nothing is written, the disk is as
    before, and neither the success line nor the closing summary is
    printed, the last line being the separator. With an empty report the
    same destination does no harm: the run completes. *)
Theorem X5_export_error_is_fatal_after_traversal
    (env : Env) (base_path output_file : string) (w : World) (e : exn)
    (Hreadonly : to_excel_error env output_file = Some e) :
  let report := local_report env (disk w) base_path in
  (report <> [] ->
   exists w',
     main_local env base_path output_file w = (Raise e, w')
     /\ same_files w w'
     /\ last (stdout w') = Some (nl +:+ repeat_str "=" 50))
  /\ (report = [] ->
      exists w',
        main_local env base_path output_file w = (Ok init, w')
        /\ same_files w w').
Proof.
  intros report.
  destruct (main_local_traversal env base_path output_file w) as (w1 & -> & Hsame).
  fold report. split; intros Hreport.
  - rewrite (finish_export_error env _ output_file w1 e) by done.
    eexists. split; [reflexivity|]. split.
    + eapply same_files_trans; [exact Hsame | apply same_files_stdout].
    + simpl. apply last_snoc.
  - rewrite Hreport.
    destruct (finish_empty env {| all_data := [] |} output_file w1 eq_refl)
      as (w' & -> & Hsame' & _).
    exists w'. split; [reflexivity|]. by eapply same_files_trans.
Qed.

Lemma X5_witness :
  exists w',
    main_local read_only_env "/root" "out.xlsx" scenario_world
    = (Raise "[Errno 13] Permission denied: 'out.xlsx'", w')
    /\ same_files scenario_world w'.
Proof.
  destruct (proj1 (X5_export_error_is_fatal_after_traversal
                     read_only_env "/root" "out.xlsx" scenario_world
                     "[Errno 13] Permission denied: 'out.xlsx'" eq_refl))
    as (w' & Hrun & Hsame & _).
  - vm_compute. discriminate.
  - exists w'. split; [exact Hrun | exact Hsame].
Defined.

(* ===================================================================== *)
(** ** The report of a remote run *)
(* ===================================================================== *)

Lemma download_file_ok env file_url local_path content w :
  sp_open_binary env file_url = inr content ->
  Remote.download_file env file_url local_path w
  = (Ok true, set_disk (fun d => <[local_path := content]> d) w).
Proof. intros H. unfold Remote.download_file. run. by rewrite H. Qed.

Lemma download_file_error env file_url local_path e w :
  sp_open_binary env file_url = inl e ->
  Remote.download_file env file_url local_path w
  = (Ok false,
     set_stdout (fun out => out ++ ["Error downloading file " +:+ file_url +:+ ": " +:+ e]) w).
Proof. intros H. unfold Remote.download_file. run. by rewrite H. Qed.

(** What was just downloaded is what extraction sees at that path. *)
Lemma extracted_after_download d local_path content unit_name :
  extracted (<[local_path := content]> d) unit_name local_path
  = match content with
    | Book wb =>
        match active wb with
        | Worksheet cells => Some (record_of_sheet unit_name cells)
        | _ => None
        end
    | Corrupt _ => None
    end.
Proof.
  unfold extracted, load_result. rewrite lookup_insert_eq. by destruct content.
Qed.

Lemma remote_file_extracted env temp_dir unit_name agg file w :
  exists w',
    remote_file env temp_dir unit_name agg file w
    = (Ok (add_questionnaire agg (remote_extracted env unit_name file)), w')
    /\ artifacts w' = artifacts w.
Proof.
  unfold remote_file, remote_extracted. rewrite bind_print.
  set (w1 := set_stdout _ w).
  set (local_path := path_join temp_dir (prop_get file "Name")).
  destruct (sp_open_binary env (prop_get file "ServerRelativeUrl"))
    as [e|content] eqn:Hget.
  - rewrite (bind_ok _ _ _ _ _ (download_file_error env _ local_path e w1 Hget)).
    rewrite bind_print. unfold ret. eexists. by split.
  - rewrite (bind_ok _ _ _ _ _ (download_file_ok env _ local_path content w1 Hget)).
    set (w2 := set_disk _ w1).
    destruct (extract_data_extracted local_path unit_name w2)
      as (w3 & Hrun & _ & Ha).
    rewrite (bind_ok _ _ _ _ _ Hrun).
    change (disk w2) with (<[local_path := content]> (disk w)).
    rewrite extracted_after_download.
    destruct content as [cause|wb]; [|destruct (active wb)];
      rewrite bind_print; unfold ret; eexists; (split; [reflexivity|]);
      simpl; exact Ha.
Qed.

Lemma remote_files_loop env temp_dir unit_name files agg w :
  exists agg' w',
    for_each files (remote_file env temp_dir unit_name) agg w = (Ok agg', w')
    /\ all_data agg' = all_data agg ++ omap (remote_extracted env unit_name) files
    /\ artifacts w' = artifacts w.
Proof.
  revert agg w. induction files as [|file files IH]; intros agg w.
  - exists agg, w. simpl. rewrite app_nil_r. by repeat split.
  - destruct (remote_file_extracted env temp_dir unit_name agg file w)
      as (w1 & Hrun & Ha1).
    destruct (IH (add_questionnaire agg (remote_extracted env unit_name file)) w1)
      as (agg' & w' & Hloop & Hdata & Ha2).
    exists agg', w'. split; [|split].
    + cbn [for_each]. by rewrite (bind_ok _ _ _ _ _ Hrun).
    + by rewrite Hdata, add_questionnaire_data, omap_cons_option, <- app_assoc.
    + congruence.
Qed.

Lemma remote_listing_listed env folder w :
  exists w',
    Remote.get_excel_files_in_folder env (prop_get folder "ServerRelativeUrl") w
    = (Ok (remote_listed_files env folder), w')
    /\ artifacts w' = artifacts w /\ disk w' = disk w.
Proof.
  unfold remote_listed_files, Remote.get_excel_files_in_folder. run.
  destruct (sp_files env (prop_get folder "ServerRelativeUrl")) as [e|files];
    simpl; [|rewrite append_loop_filter]; eexists; by repeat split.
Qed.

Lemma remote_folder_extracted env temp_dir agg folder w :
  exists agg' w',
    remote_folder env temp_dir agg folder w = (Ok agg', w')
    /\ all_data agg'
       = all_data agg
           ++ omap (remote_extracted env (prop_get folder "Name"))
                   (remote_listed_files env folder)
    /\ artifacts w' = artifacts w.
Proof.
  unfold remote_folder. rewrite bind_print.
  set (w1 := set_stdout _ w).
  destruct (remote_listing_listed env folder w1) as (w2 & Hlist & Ha2 & _).
  rewrite (bind_ok _ _ _ _ _ Hlist). rewrite bind_print.
  set (w3 := set_stdout _ w2).
  destruct (remote_files_loop env temp_dir (prop_get folder "Name")
              (remote_listed_files env folder) agg w3)
    as (agg' & w' & Hloop & Hdata & Ha3).
  exists agg', w'. split; [exact Hloop|]. split; [exact Hdata|].
  rewrite Ha3. exact Ha2.
Qed.

Lemma remote_folders_loop env temp_dir folders agg w :
  exists agg' w',
    for_each folders (remote_folder env temp_dir) agg w = (Ok agg', w')
    /\ all_data agg'
       = all_data agg
           ++ flat_map
                (fun folder =>
                   omap (remote_extracted env (prop_get folder "Name"))
                        (remote_listed_files env folder))
                folders
    /\ artifacts w' = artifacts w.
Proof.
  revert agg w. induction folders as [|folder folders IH]; intros agg w.
  - exists agg, w. simpl. rewrite app_nil_r. by repeat split.
  - destruct (remote_folder_extracted env temp_dir agg folder w)
      as (agg1 & w1 & Hrun & Hdata1 & Ha1).
    destruct (IH agg1 w1) as (agg' & w' & Hloop & Hdata & Ha2).
    exists agg', w'. split; [|split].
    + cbn [for_each]. by rewrite (bind_ok _ _ _ _ _ Hrun).
    + rewrite Hdata, Hdata1. cbn [flat_map]. by rewrite <- app_assoc.
    + congruence.
Qed.

Lemma remote_units_listed env folder_path w :
  exists w',
    Remote.get_folders_in_path env folder_path w
    = (Ok (remote_units env folder_path), w')
    /\ artifacts w' = artifacts w.
Proof.
  unfold remote_units, Remote.get_folders_in_path. run.
  destruct (sp_folders env folder_path) as [e|folders]; simpl; eexists; by split.
Qed.

(** The traversal of the remote branch, up to [finish]. *)
Lemma remote_traversal env temp_dir folder_path w :
  exists agg w1,
    (print (nl +:+ "Scanning folder: " +:+ folder_path) ;;;
     folders <- Remote.get_folders_in_path env folder_path ;;
     print ("Found " +:+ str_of_nat (length folders) +:+ " folders") ;;;
     for_each folders (remote_folder env temp_dir) init) w
    = (Ok agg, w1)
    /\ all_data agg = remote_report env folder_path
    /\ artifacts w1 = artifacts w.
Proof.
  rewrite bind_print. set (w0 := set_stdout _ w).
  destruct (remote_units_listed env folder_path w0) as (w1 & Hunits & Ha1).
  rewrite (bind_ok _ _ _ _ _ Hunits). rewrite bind_print.
  set (w2 := set_stdout _ w1).
  destruct (remote_folders_loop env temp_dir (remote_units env folder_path) init w2)
    as (agg & w3 & Hloop & Hdata & Ha3).
  exists agg, w3. split; [exact Hloop|]. split; [exact Hdata|].
  rewrite Ha3. exact Ha1.
Qed.

Lemma main_sharepoint_traversal env temp_dir folder_path output_file w :
  exists w1,
    main_sharepoint env temp_dir folder_path output_file w
    = finish env {| all_data := remote_report env folder_path |} output_file w1
    /\ artifacts w1 = artifacts w.
Proof.
  destruct (remote_traversal env temp_dir folder_path w)
    as (agg & w1 & Hrun & Hdata & Ha).
  exists w1. split; [|exact Ha].
  unfold main_sharepoint. rewrite bind_print. rewrite bind_print in Hrun.
  unfold bind at 1. unfold bind at 1 in Hrun.
  destruct (Remote.get_folders_in_path env folder_path _) as [[folders|e] w0];
    [|done].
  rewrite bind_print. rewrite bind_print in Hrun.
  rewrite (bind_ok _ _ _ _ _ Hrun).
  by rewrite <- (aggregator_eta agg), Hdata.
Qed.

(** X6: a remote run whose destination can be written always completes,
    and its report is determined by the remote store alone: for each
    listed folder in order, for each listed spreadsheet name in order,
    the record of the downloaded content when the download succeeds and
    the content is a workbook with a worksheet, and nothing otherwise.
    Neither the previous content of the local disk nor the choice of the
    scratch directory has any influence on it. *)
Theorem X6_remote_run_report_depends_on_remote_store_only
    (env : Env) (temp_dir folder_path output_file : string) (w : World)
    (Hwritable : to_excel_error env output_file = None) :
  let report := remote_report env folder_path in
  exists w',
    main_sharepoint env temp_dir folder_path output_file w
    = (Ok {| all_data := report |}, w')
    /\ (report = [] -> artifacts w' = artifacts w)
    /\ (report <> [] ->
        artifacts w'
        = <[output_file := sheet_of_frame (make_frame (map build_row report)) false]>
            (artifacts w)).
Proof.
  intros report.
  destruct (main_sharepoint_traversal env temp_dir folder_path output_file w)
    as (w1 & -> & Ha).
  fold report.
  destruct report as [|r rest] eqn:Hreport.
  - destruct (finish_empty env {| all_data := [] |} output_file w1 eq_refl)
      as (w' & -> & [Hd' Ha'] & _).
    exists w'. repeat split; [congruence | done].
  - destruct (finish_written env {| all_data := r :: rest |} output_file w1)
      as (w' & -> & Hd' & Ha'); [done | done |].
    exists w'. repeat split; [done |].
    intros _. rewrite Ha'. simpl. by rewrite Ha.
Qed.

Lemma X6_witness :
  exists w',
    main_sharepoint remote_env "/tmp/run" "/sites/q/Shared" "out.xlsx" mixed_world
    = (Ok {| all_data := [record_of_sheet "Unit-R" q_cells] |}, w').
Proof.
  destruct (X6_remote_run_report_depends_on_remote_store_only
              remote_env "/tmp/run" "/sites/q/Shared" "out.xlsx" mixed_world eq_refl)
    as (w' & Hrun & _).
  exists w'. exact Hrun.
Defined.



(* ===================================================================== *)
(** ** The output table for any number of question rows *)
(* ===================================================================== *)

Lemma str_in_In k l : str_in k l = true <-> In k l.
Proof.
  unfold str_in. rewrite existsb_exists. split.
  - intros (x & Hx & Heq). apply String.eqb_eq in Heq. by subst.
  - intros Hk. exists k. split; [done | apply String.eqb_refl].
Qed.

Lemma str_in_not_In k l : str_in k l = false <-> ~ In k l.
Proof. rewrite <- str_in_In. by destruct (str_in k l). Qed.

Lemma string_app_inv_head (pre a b : string) : pre +:+ a = pre +:+ b -> a = b.
Proof.
  induction pre as [|c pre IH]; [done|].
  change (String c (pre +:+ a) = String c (pre +:+ b) -> a = b).
  intros H. injection H as H. by apply IH.
Qed.

Lemma numbered_key_inj (pre : string) i j :
  pre +:+ str_of_nat i = pre +:+ str_of_nat j -> i = j.
Proof.
  intros H. apply string_app_inv_head in H. by apply pretty_nat_inj in H.
Qed.

Lemma keys_app (d1 d2 : dict) : keys (d1 ++ d2) = keys d1 ++ keys d2.
Proof. unfold keys. apply map_app. Qed.

Lemma dict_set_fresh k v d : ~ In k (keys d) -> dict_set k v d = d ++ [(k, v)].
Proof.
  induction d as [|[k' v'] d IH]; simpl; [done|]. intros Hk.
  destruct (String.eqb_spec k' k) as [->|Hne]; [tauto|].
  rewrite IH; [done | tauto].
Qed.

Lemma enumerate_cons {A} start (x : A) l :
  enumerate start (x :: l) = (start, x) :: enumerate (S start) l.
Proof. reflexivity. Qed.

Lemma enumerate_fst {A} (l : list A) start :
  map fst (enumerate start l) = seq start (length l).
Proof.
  revert start. induction l as [|x l IH]; intros start; [done|].
  rewrite enumerate_cons. simpl. by rewrite IH.
Qed.

Lemma enumerate_snd {A} (l : list A) start : map snd (enumerate start l) = l.
Proof.
  revert start. induction l as [|x l IH]; intros start; [done|].
  rewrite enumerate_cons. simpl. by rewrite IH.
Qed.

(** A loop that assigns fresh numbered keys appends them in order. *)
Lemma numbered_loop_appends (pre : string) (f : QA -> cell_value)
    (l : list (nat * QA)) :
  forall d,
    NoDup (map fst l) ->
    (forall i, In i (map fst l) -> ~ In (pre +:+ str_of_nat i) (keys d)) ->
    fold_left (fun row '(i, qa) => dict_set (pre +:+ str_of_nat i) (f qa) row) l d
    = d ++ map (fun '(i, qa) => (pre +:+ str_of_nat i, f qa)) l.
Proof.
  induction l as [|[i qa] l IH]; intros d Hnodup Hfresh; simpl.
  - by rewrite app_nil_r.
  - simpl in Hnodup. apply NoDup_cons in Hnodup as [Hi Hnodup].
    rewrite dict_set_fresh by (apply Hfresh; simpl; auto).
    rewrite IH; [by rewrite <- app_assoc | done |].
    intros j Hj. rewrite keys_app. simpl. intros Hin.
    apply in_app_or in Hin as [Hin | [Heq | []]].
    + apply (Hfresh j); simpl; auto.
    + apply numbered_key_inj in Heq. subst j.
      apply Hi. by apply list_elem_of_In.
Qed.

(** The row of a record, whatever its number of question rows: the
    metadata, then the answers under Q1, Q2, ..., then the comments
    under COMM Q1, COMM Q2, ... *)
Lemma build_row_shape r :
  build_row r
  = [("Application", application r); ("Answered", responsible r);
     ("App Responsible", responsible r); ("Deputy", deputy r)]
      ++ map (fun '(i, qa) => ("Q" +:+ str_of_nat i, answer qa))
             (enumerate 1 (questions_answers r))
      ++ map (fun '(i, qa) => ("COMM Q" +:+ str_of_nat i, comment qa))
             (enumerate 1 (questions_answers r)).
Proof.
  unfold build_row.
  assert (Hnodup : NoDup (map fst (enumerate 1 (questions_answers r)))).
  { rewrite enumerate_fst. apply NoDup_seq. }
  rewrite (numbered_loop_appends "Q" answer); [|done|].
  - rewrite (numbered_loop_appends "COMM Q" comment); [by rewrite <- app_assoc|done|].
    intros i _. rewrite keys_app. intros Hin.
    apply in_app_or in Hin as [Hin | Hin].
    + simpl in Hin. intuition discriminate.
    + unfold keys in Hin. rewrite map_map in Hin. apply in_map_iff in Hin
        as ([j qa] & Heq & _). simpl in Heq. discriminate.
  - intros i _. simpl. intuition discriminate.
Qed.

Lemma keys_build_row_general r :
  keys (build_row r) = header_for (length (questions_answers r)).
Proof.
  rewrite build_row_shape. unfold keys, header_for.
  rewrite !map_app, !map_map. simpl. do 4 f_equal.
  rewrite <- (enumerate_fst (questions_answers r) 1), !map_map.
  f_equal; apply map_ext; by intros [i qa].
Qed.

Lemma values_build_row r : map snd (build_row r) = flat_row r.
Proof.
  rewrite build_row_shape. unfold flat_row.
  rewrite !map_app, !map_map. simpl. do 4 f_equal.
  rewrite <- (enumerate_snd (questions_answers r) 1) at 3 4.
  rewrite !map_map. f_equal; apply map_ext; by intros [i qa].
Qed.

Lemma header_for_NoDup n : NoDup (header_for n).
Proof.
  unfold header_for. apply NoDup_app. split; [|split].
  - repeat (apply NoDup_cons_2;
            [rewrite ?elem_of_cons, elem_of_nil; intuition discriminate|]).
    apply NoDup_nil_2.
  - intros k Hk Hin. apply elem_of_app in Hin.
    rewrite !list_elem_of_In in Hin. rewrite !in_map_iff in Hin.
    rewrite !elem_of_cons, elem_of_nil in Hk.
    destruct Hin as [(i & <- & _) | (i & <- & _)]; intuition discriminate.
  - apply NoDup_app. split; [|split].
    + apply NoDup_fmap_2; [|apply NoDup_seq].
      intros i j. apply numbered_key_inj.
    + intros k Hk Hin. rewrite !list_elem_of_In in *. rewrite !in_map_iff in *.
      destruct Hk as (i & <- & _). destruct Hin as (j & Heq & _). discriminate.
    + apply NoDup_fmap_2; [|apply NoDup_seq].
      intros i j. apply numbered_key_inj.
Qed.

(** Looking every key up in order gives the values back. *)
Lemma dict_get_keys (d : dict) :
  NoDup (keys d) ->
  map (fun c => default VNone (dict_get c d)) (keys d) = map snd d.
Proof.
  induction d as [|[k v] d IH]; [done|]. simpl. intros Hnodup.
  apply NoDup_cons in Hnodup as [Hk Hnodup].
  rewrite String.eqb_refl. simpl. f_equal.
  rewrite <- IH by done. apply map_ext_in. intros c Hc.
  destruct (String.eqb_spec k c) as [->|Hne]; [|done].
  exfalso. apply Hk. by apply list_elem_of_In.
Qed.

Lemma frame_row_own_keys r :
  frame_row (keys (build_row r)) (build_row r) = flat_row r.
Proof.
  unfold frame_row. rewrite dict_get_keys; [apply values_build_row|].
  rewrite keys_build_row_general. apply header_for_NoDup.
Qed.

(** Columns already present are not added again; new columns of a row
    without repeated keys are appended in the order of the row. *)
Lemma add_keys_absorb (ks cols : list string) :
  (forall k, In k ks -> In k cols) ->
  fold_left (fun cols k => if str_in k cols then cols else cols ++ [k]) ks cols
  = cols.
Proof.
  induction ks as [|k ks IH]; intros Hsub; [done|]. simpl.
  assert (Hk : str_in k cols = true) by (apply str_in_In, Hsub; simpl; auto).
  rewrite Hk. apply IH. intros k' Hk'. apply Hsub. simpl. auto.
Qed.

Lemma add_keys_fresh (ks : list string) :
  forall cols,
    NoDup ks -> (forall k, In k ks -> ~ In k cols) ->
    fold_left (fun cols k => if str_in k cols then cols else cols ++ [k]) ks cols
    = cols ++ ks.
Proof.
  induction ks as [|k ks IH]; intros cols Hnodup Hfresh; simpl.
  - by rewrite app_nil_r.
  - apply NoDup_cons in Hnodup as [Hk Hnodup].
    assert (Hnot : str_in k cols = false)
      by (apply str_in_not_In, Hfresh; simpl; auto).
    rewrite Hnot. rewrite IH; [by rewrite <- app_assoc | done |].
    intros k' Hk' Hin. apply in_app_or in Hin as [Hin | [-> | []]].
    + apply (Hfresh k'); simpl; auto.
    + apply Hk. by apply list_elem_of_In.
Qed.

Lemma frame_columns_uniform n all :
  all <> [] ->
  Forall (fun r => length (questions_answers r) = n) all ->
  frame_columns (map build_row all) = header_for n.
Proof.
  intros Hne Hall. destruct all as [|r all]; [done|].
  apply Forall_cons in Hall as [Hr Hall]. clear Hne.
  unfold frame_columns. cbn [map fold_left].
  assert (Hfirst : add_columns [] (build_row r) = header_for n).
  { unfold add_columns. rewrite keys_build_row_general, Hr.
    rewrite add_keys_fresh; [done | apply header_for_NoDup | auto]. }
  rewrite Hfirst. clear Hfirst Hr.
  induction Hall as [|r' all Hr' Hall IH]; [done|]. cbn [map fold_left].
  assert (Hnext : add_columns (header_for n) (build_row r') = header_for n).
  { unfold add_columns. rewrite keys_build_row_general, Hr'.
    by apply add_keys_absorb. }
  by rewrite Hnext.
Qed.

(** X8: the exporter does not depend on the number 17. For a non-empty
    report whose records all have the same number [n] of question rows,
    whatever [n] is, a successful export writes the header Application,
    Answered, App Responsible, Deputy, Q1..Qn, COMM Q1..COMM Qn, all
    4 + 2n column names distinct, and one row per record holding the
    metadata, the n answers and the n comments in that order. *)
Theorem X8_export_for_any_row_count
    (env : Env) (self : DataAggregator) (output_file : string) (w : World)
    (n : nat)
    (Hnonempty : all_data self <> [])
    (Huniform : Forall (fun r => length (questions_answers r) = n) (all_data self))
    (Hwritable : to_excel_error env output_file = None) :
  exists w',
    export_to_excel env self output_file w = (Ok tt, w')
    /\ artifacts w' !! output_file
       = Some {| header := header_for n; body := map flat_row (all_data self) |}
    /\ length (header_for n) = 4 + 2 * n
    /\ NoDup (header_for n)
    /\ Forall (fun row => length row = 4 + 2 * n) (map flat_row (all_data self)).
Proof.
  eexists. split; [by apply export_nonempty|].
  split; [|split; [|split]].
  - simpl. rewrite lookup_insert_eq. f_equal.
    unfold sheet_of_frame, make_frame. cbv zeta. cbn [columns values].
    rewrite (frame_columns_uniform n) by done. f_equal.
    clear Hnonempty. induction Huniform as [|r all Hr Hall IH]; [done|].
    cbn [map]. rewrite IH. f_equal.
    rewrite <- Hr, <- keys_build_row_general. apply frame_row_own_keys.
  - unfold header_for. rewrite !length_app, !length_map, !length_seq. simpl. lia.
  - apply header_for_NoDup.
  - apply Forall_map. eapply Forall_impl; [exact Huniform|].
    intros r Hr. unfold flat_row. simpl.
    rewrite !length_app, !length_map, Hr. lia.
Qed.

Lemma X8_witness :
  exists w',
    export_to_excel scenario_env
      {| all_data := [{| source_folder := "U"; application := VStr "A";
                         responsible := VStr "R"; deputy := VNone;
                         questions_answers :=
                           [{| question := VNone; answer := VInt 1;
                               comment := VNone |};
                            {| question := VNone; answer := VInt 2;
                               comment := VStr "c" |}] |}] |}
      "out.xlsx" (fresh ∅) = (Ok tt, w')
    /\ artifacts w' !! "out.xlsx"
       = Some {| header := ["Application"; "Answered"; "App Responsible"; "Deputy";
                            "Q1"; "Q2"; "COMM Q1"; "COMM Q2"];
                 body := [[VStr "A"; VStr "R"; VStr "R"; VNone;
                           VInt 1; VInt 2; VNone; VStr "c"]] |}.
Proof.
  destruct (X8_export_for_any_row_count scenario_env
              {| all_data := [{| source_folder := "U"; application := VStr "A";
                                 responsible := VStr "R"; deputy := VNone;
                                 questions_answers :=
                                   [{| question := VNone; answer := VInt 1;
                                       comment := VNone |};
                                    {| question := VNone; answer := VInt 2;
                                       comment := VStr "c" |}] |}] |}
              "out.xlsx" (fresh ∅) 2)
    as (w' & Hrun & Hart & _).
  - simpl. discriminate.
  - repeat constructor.
  - reflexivity.
  - exists w'. split; [exact Hrun | exact Hart].
Defined.

(* ===================================================================== *)
(** ** From the tree to the table *)
(* ===================================================================== *)

Lemma extracted_rows d unit_name file_path r :
  extracted d unit_name file_path = Some r ->
  length (questions_answers r) = N.
Proof.
  unfold extracted. destruct (load_result d file_path) as [e|wb]; [done|].
  destruct (active wb); try done. intros H. by inversion H.
Qed.

Lemma local_report_well_formed env d base_path :
  well_formed (local_report env d base_path).
Proof.
  unfold well_formed, local_report. apply Forall_forall. intros r Hr.
  apply list_elem_of_In, in_flat_map in Hr as (folder & _ & Hr).
  apply list_elem_of_In, list_elem_of_omap in Hr as (file & _ & Hr).
  by eapply extracted_rows.
Qed.

Lemma remote_report_well_formed env folder_path :
  well_formed (remote_report env folder_path).
Proof.
  unfold well_formed, remote_report. apply Forall_forall. intros r Hr.
  apply list_elem_of_In, in_flat_map in Hr as (folder & _ & Hr).
  apply list_elem_of_In, list_elem_of_omap in Hr as (file & _ & Hr).
  unfold remote_extracted in Hr.
  destruct (sp_open_binary env _) as [e|[cause|wb]]; try done.
  destruct (active wb); try done. by inversion Hr.
Qed.

(** X9: end to end, the table a run leaves at its destination has the
    fixed header of the output contract and exactly one row per readable
    spreadsheet, in discovery order: for a local run the rows of
    [local_report], for a remote run the rows of [remote_report],
    provided the report is not empty and the destination can be
    written. *)
Theorem X9_run_writes_one_row_per_readable_file
    (env : Env) (base_path temp_dir output_file : string) (w : World)
    (Hwritable : to_excel_error env output_file = None) :
  (local_report env (disk w) base_path <> [] ->
   artifacts (snd (main_local env base_path output_file w)) !! output_file
   = Some {| header := expected_header;
             body := map flat_row (local_report env (disk w) base_path) |})
  /\ (remote_report env base_path <> [] ->
      artifacts (snd (main_sharepoint env temp_dir base_path output_file w)) !! output_file
      = Some {| header := expected_header;
                body := map flat_row (remote_report env base_path) |}).
Proof.
  split; intros Hne.
  - destruct (main_local_traversal env base_path output_file w) as (w1 & -> & _).
    destruct (finish_written env {| all_data := local_report env (disk w) base_path |}
                output_file w1 Hne Hwritable) as (w' & -> & _ & Ha).
    cbn [snd]. rewrite Ha. cbn [all_data]. rewrite lookup_insert_eq.
    by rewrite written_table by (done || apply local_report_well_formed).
  - destruct (main_sharepoint_traversal env temp_dir base_path output_file w)
      as (w1 & -> & _).
    destruct (finish_written env {| all_data := remote_report env base_path |}
                output_file w1 Hne Hwritable) as (w' & -> & _ & Ha).
    cbn [snd]. rewrite Ha. cbn [all_data]. rewrite lookup_insert_eq.
    by rewrite written_table by (done || apply remote_report_well_formed).
Qed.

Lemma X9_witness :
  artifacts (snd (main_local mixed_env "/data" "out.xlsx" mixed_world)) !! "out.xlsx"
  = Some {| header := expected_header;
            body := map flat_row (local_report mixed_env (disk mixed_world) "/data") |}.
Proof.
  apply (proj1 (X9_run_writes_one_row_per_readable_file
                  mixed_env "/data" "/tmp/run" "out.xlsx" mixed_world eq_refl)).
  vm_compute. discriminate.
Defined.

(** X10: the unit name is kept in the record but never reaches the
    output: filing every record of a report under another unit name
    changes nothing in what an export prints, writes or returns. *)
Theorem X10_unit_name_is_not_exported
    (env : Env) (all : list Questionnaire) (unit_name output_file : string)
    (w : World) :
  export_to_excel env {| all_data := map (relabel unit_name) all |} output_file w
  = export_to_excel env {| all_data := all |} output_file w.
Proof.
  unfold export_to_excel. cbn [all_data].
  destruct all as [|r all]; [done|].
  cbn [map]. rewrite !build_rows_map.
  replace (map build_row (relabel unit_name r :: map (relabel unit_name) all))
    with (map build_row (r :: all)); [done|].
  cbn [map]. f_equal. rewrite map_map. by apply map_ext.
Qed.

(* ===================================================================== *)
(** ** [connect] and [main] *)
(* ===================================================================== *)

(** X11: [connect] never raises. It answers [True] exactly when the
    token is acquired and the test query for the site title succeeds;
    in every other case (authentication refused, or an exception from
    either step) it answers [False]. Either way it prints exactly one
    line and touches neither the disk nor the artifacts. *)
Theorem X11_connect_reports_success_or_failure
    (host : Host) (self : Connector) (w : World) :
  exists b line,
    connect host self w = (Ok b, set_stdout (fun out => out ++ [line]) w)
    /\ (b = true
        <-> acquire_token host (site_url self) (username self) (password self)
            = inr true
            /\ exists title, site_title host (site_url self) = inr title)
    /\ (b = true ->
        exists title, line = "Connected to SharePoint site: " +:+ title).
Proof.
  unfold connect. run.
  destruct (acquire_token host (site_url self) (username self) (password self))
    as [e|[|]] eqn:Hauth; simpl.
  - eexists _, _. split; [reflexivity|]. split; [|done].
    split; [done | by intros [? _]].
  - destruct (site_title host (site_url self)) as [e|title] eqn:Htitle; simpl.
    + eexists _, _. split; [reflexivity|]. split; [|done].
      split; [done | by intros [_ [? ?]]].
    + eexists _, _. split; [reflexivity|]. split; [|eauto].
      split; [eauto | done].
  - eexists _, _. split; [reflexivity|]. split; [|done].
    split; [done | by intros [? _]].
Qed.

(** [finish] either returns its aggregator or passes on the error of
    the final write; it never touches the disk. *)
Lemma finish_cases env agg output_file w :
  (exists w', finish env agg output_file w = (Ok agg, w') /\ disk w' = disk w)
  \/ (exists e w',
        to_excel_error env output_file = Some e
        /\ finish env agg output_file w = (Raise e, w')
        /\ same_files w w').
Proof.
  destruct (all_data agg) as [|r rest] eqn:Hdata.
  - left. destruct (finish_empty env agg output_file w Hdata) as (w' & H & [Hd _] & _).
    eauto.
  - destruct (to_excel_error env output_file) as [e|] eqn:Hw.
    + right. exists e. eexists. split; [done|].
      rewrite (finish_export_error env agg output_file w e) by (done || congruence).
      split; [reflexivity | apply same_files_stdout].
    + left. destruct (finish_written env agg output_file w) as (w' & H & Hd & _);
        [congruence | done | eauto].
Qed.





Lemma connect_flag host self w :
  exists w', connect host self w = (Ok (reachable host self), w')
             /\ same_files w w'.
Proof.
  unfold connect, reachable. run.
  destruct (acquire_token host (site_url self) (username self) (password self))
    as [e|[|]]; simpl; [| |].
  - eexists. split; [reflexivity | by split].
  - destruct (site_title host (site_url self)) as [e|title]; simpl;
      eexists; (split; [reflexivity | by split]).
  - eexists. split; [reflexivity | by split].
Qed.

Lemma of_outcome_not_exit r status : fst (of_outcome r) <> Exited status.
Proof. by destruct r as [[a|e] w]. Qed.

(** X13: [main] ends in [sys.exit(1)] exactly on a configuration or
    connection error: the mode (lower-cased) is neither local nor
    sharepoint; or it is sharepoint and the client library is missing, or
    one of the four settings is unset or empty, or the connection is not
    established. The local mode never exits this way. *)
Theorem X13_main_exits_on_configuration_errors_only
    (host : Host) (env : Env) (w : World) :
  (exists status, fst (main host env w) = Exited status)
  <-> (mode_of host <> "local" /\ mode_of host <> "sharepoint")
      \/ (mode_of host = "sharepoint"
          /\ (sharepoint_available host = false
              \/ configured host = false
              \/ reachable host (configured_connector host) = false)).
Proof.
  unfold main. fold (mode_of host). fold (output_of host).
  set (w0 := say _ w).
  destruct (String.eqb_spec (mode_of host) "local") as [Hlocal|Hnot_local].
  { split.
    - intros [status H]. by apply of_outcome_not_exit in H.
    - rewrite Hlocal. intros [[? _] | [? _]]; done. }
  destruct (String.eqb_spec (mode_of host) "sharepoint") as [Hremote|Hnot_remote].
  2: { split; [by left | intros _; by eexists]. }
  unfold sharepoint_branch. fold (configured host).
  destruct (sharepoint_available host); cbn [negb].
  2: { split; [intros _; right; auto | intros _; by eexists]. }
  destruct (configured host); cbn [negb].
  2: { split; [intros _; right; auto | intros _; by eexists]. }
  set (w1 := say _ w0). fold (configured_connector host).
  destruct (connect_flag host (configured_connector host) w1) as (w2 & -> & _).
  destruct (reachable host (configured_connector host)).
  - fold (remote_root host).
    destruct (remote_traversal env (temp_dir host) (remote_root host) w2)
      as (agg & w3 & -> & _).
    split.
    + intros [status H]. by apply of_outcome_not_exit in H.
    + intros [[_ ?] | [_ [? | [? | ?]]]]; done.
  - split; [intros _; right; auto | intros _; by eexists].
Qed.

Lemma getenv_with_mode_other m host key :
  key <> "MODE" -> getenv (with_mode m host) key = getenv host key.
Proof. intros Hne. unfold getenv, with_mode. simpl. by rewrite lookup_insert_ne. Qed.

(** [main] reads MODE through [lower] only. *)
Lemma main_with_mode host env w m1 m2 :
  lower m1 = lower m2 ->
  main (with_mode m1 host) env w = main (with_mode m2 host) env w.
Proof.
  intros Hm. unfold main, getenv_or.
  assert (Hmode : forall m, environ (with_mode m host) !! "MODE" = Some m)
    by (intros m; unfold with_mode; simpl; apply lookup_insert_eq).
  assert (Hother : forall m key, key <> "MODE" ->
                     environ (with_mode m host) !! key = environ host !! key)
    by (intros m key Hne; unfold with_mode; simpl; by rewrite lookup_insert_ne).
  rewrite !Hmode. cbn [from_option id]. rewrite Hm.
  rewrite !(Hother _ "OUTPUT_FILE") by done.
  unfold local_branch, sharepoint_branch.
  rewrite !getenv_with_mode_other by done.
  reflexivity.
Qed.

(** X14: the mode is matched without regard to case, and an unset MODE
    means local: a host whose MODE is any spelling of a word behaves as
    with the lower-case spelling, and a host without MODE behaves as
    with MODE=local (so also as with MODE=LOCAL or MODE=Local). *)
Theorem X14_mode_is_case_insensitive_and_defaults_to_local
    (host : Host) (env : Env) (w : World) (m : string) :
  main (with_mode m host) env w = main (with_mode (lower m) host) env w
  /\ (getenv host "MODE" = None ->
      lower m = "local" ->
      main host env w = main (with_mode m host) env w).
Proof.
  split.
  - apply main_with_mode. by rewrite lower_idem.
  - intros Hunset Hm.
    rewrite (main_with_mode host env w m "local") by done.
    unfold main, getenv_or. unfold getenv in Hunset. rewrite Hunset.
    assert (Hmode : environ (with_mode "local" host) !! "MODE" = Some "local")
      by (unfold with_mode; simpl; apply lookup_insert_eq).
    assert (Hother : forall key, key <> "MODE" ->
                       environ (with_mode "local" host) !! key = environ host !! key)
      by (intros key Hne; unfold with_mode; simpl; by rewrite lookup_insert_ne).
    rewrite Hmode. cbn [from_option id]. rewrite !(Hother "OUTPUT_FILE") by done.
    unfold local_branch, sharepoint_branch.
    rewrite !getenv_with_mode_other by done.
    reflexivity.
Qed.

Lemma X14_witness :
  main scenario_host_unset scenario_env scenario_world
  = main (with_mode "LOCAL" scenario_host_unset) scenario_env scenario_world.
Proof.
  exact (proj2 (X14_mode_is_case_insensitive_and_defaults_to_local
                  scenario_host_unset scenario_env scenario_world "LOCAL")
               eq_refl eq_refl).
Defined.

Lemma cleanup_removes dir w path :
  below dir path = true -> disk (cleanup dir w) !! path = None.
Proof.
  intros Hbelow. unfold cleanup. simpl.
  apply map_lookup_filter_None. right. intros x _. simpl. by rewrite Hbelow.
Qed.

(** X15: scratch downloads never survive a remote run. Once the
    connection is established, whatever the traversal downloads and
    however the final write goes, no path below the temporary directory
    is left on the disk when [main] ends. *)
Theorem X15_scratch_directory_is_emptied
    (host : Host) (env : Env) (w : World) (path : string)
    (Hmode : mode_of host = "sharepoint")
    (Havailable : sharepoint_available host = true)
    (Hconfigured : configured host = true)
    (Hreachable : reachable host (configured_connector host) = true)
    (Hbelow : below (temp_dir host) path = true) :
  disk (snd (main host env w)) !! path = None.
Proof.
  unfold main. fold (mode_of host). fold (output_of host). rewrite Hmode.
  cbn [String.eqb Ascii.eqb Bool.eqb]. simpl String.eqb.
  unfold sharepoint_branch. fold (configured host).
  rewrite Havailable, Hconfigured. cbn [negb].
  fold (configured_connector host).
  set (w1 := say _ (say _ w)).
  destruct (connect_flag host (configured_connector host) w1) as (w2 & -> & _).
  rewrite Hreachable. fold (remote_root host).
  destruct (remote_traversal env (temp_dir host) (remote_root host) w2)
    as (agg & w3 & -> & _).
  destruct (finish_cases env agg (output_of host) (cleanup (temp_dir host) w3))
    as [(w4 & -> & Hd) | (err & w4 & _ & -> & [Hd _])];
    simpl; rewrite Hd; by apply cleanup_removes.
Qed.

Lemma X15_witness :
  disk (snd (main remote_host remote_env mixed_world)) !! "/tmp/run/a.xlsx" = None.
Proof.
  exact (X15_scratch_directory_is_emptied
           remote_host remote_env mixed_world "/tmp/run/a.xlsx"
           eq_refl eq_refl eq_refl eq_refl eq_refl).
Defined.
